(** * Nutrition tracker (app.py): a shallow embedding and its properties

    The development follows the layout of [app.py]:
    - [PyStr]: the [str] methods the program calls ([strip], [lower],
      [capitalize], [split(',')]) on ASCII text;
    - [Regex]: the backtracking matcher for the webhook pattern;
    - the catalog [food_db] and [calculate_nutrition];
    - [PyNum]: binary64 numbers, [float(...)] and [round(x, 2)];
    - [calculate_bmr], [validate_user_data];
    - the two stores and the routes [register_user] and [webhook] as
      state-passing functions.

    Python [str] values are modelled as [string]; the characters below 128
    behave as in Python, the others are treated as caseless non-space
    characters.  Python [int] is [Z], Python [float] is the primitive
    binary64 [float]. *)

From Stdlib Require Import ZArith Ascii String Permutation.
From Stdlib Require Import Floats.PrimFloat Floats.FloatOps Floats.SpecFloat.
From stdpp Require Import gmap strings list.

Local Open Scope string_scope.

(** ** Python string methods *)

Module PyStr.

Definition code (c : ascii) : N := N_of_ascii c.

(** [str.isspace] on one character: TAB, LF, VT, FF, CR, the four
    separators FS..US and the blank.  The same class is what [\s] matches
    in a [str] pattern. *)
Definition is_space (c : ascii) : bool :=
  let n := code c in
  ((9 <=? n) && (n <=? 13) || (28 <=? n) && (n <=? 32))%N.

Definition is_upper (c : ascii) : bool :=
  let n := code c in ((65 <=? n) && (n <=? 90))%N.

Definition is_lower (c : ascii) : bool :=
  let n := code c in ((97 <=? n) && (n <=? 122))%N.

Definition is_digit (c : ascii) : bool :=
  let n := code c in ((48 <=? n) && (n <=? 57))%N.

Definition lower_char (c : ascii) : ascii :=
  if is_upper c then ascii_of_N (code c + 32) else c.

Definition upper_char (c : ascii) : ascii :=
  if is_lower c then ascii_of_N (code c - 32) else c.

Fixpoint map (f : ascii -> ascii) (s : string) : string :=
  match s with
  | EmptyString => EmptyString
  | String c s' => String (f c) (map f s')
  end.

Fixpoint forallb (p : ascii -> bool) (s : string) : bool :=
  match s with
  | EmptyString => true
  | String c s' => p c && forallb p s'
  end.

(** [s.lower()] *)
Definition lower (s : string) : string := map lower_char s.

(** [s.capitalize()]: first character upper-cased, the rest lower-cased. *)
Definition capitalize (s : string) : string :=
  match s with
  | EmptyString => EmptyString
  | String c s' => String (upper_char c) (lower s')
  end.

Definition is_empty (s : string) : bool :=
  match s with EmptyString => true | _ => false end.

Fixpoint lstrip (s : string) : string :=
  match s with
  | EmptyString => EmptyString
  | String c s' => if is_space c then lstrip s' else s
  end.

Fixpoint rstrip (s : string) : string :=
  match s with
  | EmptyString => EmptyString
  | String c s' =>
      let r := rstrip s' in
      if is_space c && is_empty r then EmptyString else String c r
  end.

(** [s.strip()] *)
Definition strip (s : string) : string := rstrip (lstrip s).

(** [s.split(sep)] for a one-character separator: every occurrence of the
    separator cuts, nothing is dropped, and the result is never empty. *)
Fixpoint split (sep : ascii) (s : string) : list string :=
  match s with
  | EmptyString => [EmptyString]
  | String c s' =>
      if Ascii.eqb c sep then EmptyString :: split sep s'
      else match split sep s' with
           | piece :: pieces => String c piece :: pieces
           | [] => [String c EmptyString]
           end
  end.

(** [sep.join(pieces)] *)
Fixpoint join (sep : ascii) (pieces : list string) : string :=
  match pieces with
  | [] => EmptyString
  | [p] => p
  | p :: ps => p +:+ String sep (join sep ps)
  end.

Fixpoint count (x : ascii) (s : string) : nat :=
  match s with
  | EmptyString => 0
  | String c s' => (if Ascii.eqb c x then 1 else 0) + count x s'
  end.

Fixpoint endswith_char (x : ascii) (s : string) : bool :=
  match s with
  | EmptyString => false
  | String c EmptyString => Ascii.eqb c x
  | String _ s' => endswith_char x s'
  end.

Definition no_upper (s : string) : bool :=
  forallb (fun c => negb (is_upper c)) s.

End PyStr.

(** ** The webhook pattern

    [re.match(r'log\s+(breakfast|lunch|dinner|snack):\s*(.+)', message)]:
    the match is anchored at the start only, quantifiers are greedy and give
    characters back when what follows fails, alternatives are tried from
    left to right.  Each combinator takes the rest of the pattern as a
    continuation, which is how the backtracking is expressed. *)

Module Regex.

Section Combinators.
Context {R : Type}.

(** a literal: the input has to start with it *)
Fixpoint lit (p s : string) (k : string -> option R) : option R :=
  match p, s with
  | EmptyString, _ => k s
  | String a p', String c s' => if Ascii.eqb a c then lit p' s' k else None
  | String _ _, EmptyString => None
  end.

(** [x*] on a character class, greedy *)
Fixpoint star (p : ascii -> bool) (s : string) (k : string -> option R)
  : option R :=
  match s with
  | String c s' =>
      if p c then
        match star p s' k with
        | Some r => Some r
        | None => k s
        end
      else k s
  | EmptyString => k s
  end.

(** [x+] on a character class, greedy *)
Definition plus (p : ascii -> bool) (s : string) (k : string -> option R)
  : option R :=
  match s with
  | String c s' => if p c then star p s' k else None
  | EmptyString => None
  end.

(** a captured [x*]: the continuation also receives the captured text *)
Fixpoint star_group (p : ascii -> bool) (s : string)
    (k : string -> string -> option R) : option R :=
  match s with
  | String c s' =>
      if p c then
        match star_group p s' (fun g rest => k (String c g) rest) with
        | Some r => Some r
        | None => k EmptyString s
        end
      else k EmptyString s
  | EmptyString => k EmptyString s
  end.

(** a captured [x+] *)
Definition plus_group (p : ascii -> bool) (s : string)
    (k : string -> string -> option R) : option R :=
  match s with
  | String c s' =>
      if p c then star_group p s' (fun g rest => k (String c g) rest)
      else None
  | EmptyString => None
  end.

(** [(a|b|...)] over literal alternatives *)
Fixpoint alt_group (alts : list string) (s : string)
    (k : string -> string -> option R) : option R :=
  match alts with
  | [] => None
  | a :: alts' =>
      match lit a s (k a) with
      | Some r => Some r
      | None => alt_group alts' s k
      end
  end.
End Combinators.

(** [.] without DOTALL: everything but the line feed *)
Definition dot (c : ascii) : bool := negb (Ascii.eqb c "010"%char).

Definition meal_types : list string :=
  ["breakfast"; "lunch"; "dinner"; "snack"].

(** [re.match(pattern, message)], returning [(group(1), group(2))] *)
Definition match_pattern (message : string) : option (string * string) :=
  lit "log" message (fun s1 =>
  plus PyStr.is_space s1 (fun s2 =>
  alt_group meal_types s2 (fun g1 s3 =>
  lit ":" s3 (fun s4 =>
  star PyStr.is_space s4 (fun s5 =>
  plus_group dot s5 (fun g2 _ => Some (g1, g2))))))).

End Regex.

(** ** The food catalog and the aggregation *)

Record Nutrition : Type := mkNutrition {
  calories : Z;
  protein : Z;
  carbs : Z;
  fiber : Z
}.

Definition food_db : gmap string Nutrition :=
  list_to_map [
    ("Jeera Rice", mkNutrition 250 5 45 2);
    ("Dal", mkNutrition 180 12 20 5);
    ("Cucumber", mkNutrition 16 1 4 1);
    ("Roti", mkNutrition 120 3 25 3);
    ("Chicken Curry", mkNutrition 300 25 8 1);
    ("Paneer", mkNutrition 265 18 6 0);
    ("Salad", mkNutrition 25 2 5 3);
    ("Rice", mkNutrition 205 4 45 1)
  ].

Definition zero_nutrition : Nutrition := mkNutrition 0 0 0 0.

(** The inner loop [for nutrient in total_nutrition: total[nutrient] +=
    nutrition[nutrient]] over the four keys of the accumulator. *)
Definition add_nutrition (total nutrition : Nutrition) : Nutrition :=
  {| calories := calories total + calories nutrition;
     protein := protein total + protein nutrition;
     carbs := carbs total + carbs nutrition;
     fiber := fiber total + fiber nutrition |}.

(** One turn of the outer loop. *)
Definition nutrition_step (total : Nutrition) (item : string) : Nutrition :=
  match food_db !! item with
  | Some nutrition => add_nutrition total nutrition
  | None => total
  end.

Definition calculate_nutrition (food_items : list string) : Nutrition :=
  fold_left nutrition_step food_items zero_nutrition.

(** What the specification calls the elementwise sum of the facts of the
    recognised items: the catalog entries of the items that have one, each
    taken as often as it occurs, summed field by field. *)
Definition recognised (food_items : list string) : list Nutrition :=
  omap (fun item => food_db !! item) food_items.

Definition sum_field (f : Nutrition -> Z) (facts : list Nutrition) : Z :=
  foldr Z.add 0%Z (f <$> facts).

Definition sum_facts (facts : list Nutrition) : Nutrition :=
  {| calories := sum_field calories facts;
     protein := sum_field protein facts;
     carbs := sum_field carbs facts;
     fiber := sum_field fiber facts |}.

(** ** Exceptions and results *)

Inductive exn_kind :=
  ValueError | TypeError | AttributeError | OverflowError | KeyError.

(** An exception: its class and, where the program chooses it, its message
    ([None] for the interpreter's own wording). *)
Inductive exn := Exn (kind : exn_kind) (msg : option string).

Inductive result (A : Type) :=
| Ok (a : A)
| Raise (e : exn).
Arguments Ok {A} a.
Arguments Raise {A} e.

#[global] Instance result_ret : MRet result := fun A a => Ok a.
#[global] Instance result_bind : MBind result := fun A B f m =>
  match m with
  | Ok a => f a
  | Raise e => Raise e
  end.

(** ** Numbers: [int], [float], [float(...)] and [round(x, 2)] *)

Module PyNum.

(** The binary64 number nearest to [+-p/q], ties to even; an overflow gives
    an infinity. *)
Definition round_ratio (neg : bool) (p q : positive) : spec_float :=
  let '(mz, ez, lz) := SFdiv_core_binary prec emax (Zpos p) 0 (Zpos q) 0 in
  binary_round_aux prec emax neg mz ez lz.

(** [float(z)] for an [int]: correctly rounded, [OverflowError] beyond the
    largest finite number. *)
Definition float_of_int (z : Z) : result float :=
  match binary_normalize prec emax z 0 false with
  | S754_infinity _ => Raise (Exn OverflowError None)
  | f => Ok (SF2Prim f)
  end.

(** The number [+-m * 10^e] read by [strtod]. *)
Definition decimal_to_float (neg : bool) (m e : Z) : spec_float :=
  match m with
  | Zpos p =>
      match e with
      | Zneg k => round_ratio neg p (10 ^ k)%positive
      | _ => round_ratio neg (Z.to_pos (Zpos p * 10 ^ e)) 1
      end
  | _ => S754_zero neg
  end.

(** The blanks that [float(str)] removes around an ASCII text. *)
Definition c_isspace (c : ascii) : bool :=
  let n := PyStr.code c in ((9 <=? n) && (n <=? 13) || (n =? 32))%N.

Fixpoint c_lstrip (s : string) : string :=
  match s with
  | EmptyString => EmptyString
  | String c s' => if c_isspace c then c_lstrip s' else s
  end.

Fixpoint c_rstrip (s : string) : string :=
  match s with
  | EmptyString => EmptyString
  | String c s' =>
      let r := c_rstrip s' in
      if c_isspace c && PyStr.is_empty r then EmptyString else String c r
  end.

(** Underscores may only stand between two digits; they are removed. *)
Fixpoint drop_underscores (prev : ascii) (s : string) : option string :=
  match s with
  | EmptyString => if Ascii.eqb prev "_" then None else Some EmptyString
  | String c s' =>
      if Ascii.eqb c "_" then
        if PyStr.is_digit prev then drop_underscores c s' else None
      else if Ascii.eqb prev "_" && negb (PyStr.is_digit c) then None
      else String c <$> drop_underscores c s'
  end.

Definition take_sign (s : string) : bool * string :=
  match s with
  | String "-" s' => (true, s')
  | String "+" s' => (false, s')
  | _ => (false, s)
  end.

(** Reads a run of digits: the number read so far, how many digits were
    read, and what follows. *)
Fixpoint take_digits (acc : Z) (n : Z) (s : string) : Z * Z * string :=
  match s with
  | String c s' =>
      if PyStr.is_digit c
      then take_digits (10 * acc + (Z.of_N (PyStr.code c) - 48)) (n + 1) s'
      else (acc, n, s)
  | EmptyString => (acc, n, s)
  end.

Definition is_e (c : ascii) : bool := Ascii.eqb c "e" || Ascii.eqb c "E".

(** [digits [. digits] | . digits] then an optional exponent, to the end of
    the text: the mantissa as an integer and the power of ten. *)
Definition parse_decimal (s : string) : option (Z * Z) :=
  let '(m1, n1, r1) := take_digits 0 0 s in
  let '(m2, n2, r2) :=
    match r1 with
    | String "." r => take_digits m1 0 r
    | _ => (m1, 0%Z, r1)
    end in
  if (n1 + n2 =? 0)%Z then None
  else match r2 with
       | EmptyString => Some (m2, (- n2)%Z)
       | String c r3 =>
           if is_e c then
             let '(eneg, r4) := take_sign r3 in
             let '(x, nx, r5) := take_digits 0 0 r4 in
             if (nx =? 0)%Z || negb (PyStr.is_empty r5) then None
             else Some (m2, ((if eneg then - x else x) - n2)%Z)
           else None
       end.

(** [float(s)] for a [str]. *)
Definition float_of_str (s : string) : result float :=
  let bad := Raise (Exn ValueError None) in
  match drop_underscores "000" (c_rstrip (c_lstrip s)) with
  | None => bad
  | Some t =>
      let '(neg, body) := take_sign t in
      let name := PyStr.lower body in
      if String.eqb name "inf" || String.eqb name "infinity"
      then Ok (if neg then neg_infinity else infinity)
      else if String.eqb name "nan" then Ok nan
      else match parse_decimal body with
           | Some (m, e) => Ok (SF2Prim (decimal_to_float neg m e))
           | None => bad
           end
  end.

(** Division of a non-negative integer, rounded to the nearest integer,
    ties to even. *)
Definition div_half_even (a b : Z) : Z :=
  let q := (a / b)%Z in
  let r := (a mod b)%Z in
  match (2 * r ?= b)%Z with
  | Lt => q
  | Gt => (q + 1)%Z
  | Eq => if Z.even q then q else (q + 1)%Z
  end.

(** [round(x, 2)]: the exact value of [x] is rounded to two decimals, ties
    to even, and the decimal is read back as a binary64 number. *)
Definition round2 (x : float) : float :=
  match Prim2SF x with
  | S754_finite s m e =>
      let hundredths :=
        match e with
        | Zneg k => div_half_even (Zpos m * 100) (Zpos (2 ^ k))
        | _ => (Zpos m * 2 ^ e * 100)%Z
        end in
      match hundredths with
      | Zpos k => SF2Prim (round_ratio s k 100)
      | _ => if s then neg_zero else zero
      end
  | _ => x
  end.

End PyNum.

Local Open Scope float_scope.
Set Warnings "-inexact-float,-register-all".

(** ** JSON values, as [request.get_json()] hands them over *)

Inductive json :=
| JNull
| JBool (b : bool)
| JInt (z : Z)
| JFloat (f : float)
| JStr (s : string)
| JArr (items : list json)
| JObj (members : list (string * json)).

(** [bool(v)]: what [not v] negates *)
Definition truthy (v : json) : bool :=
  match v with
  | JNull => false
  | JBool b => b
  | JInt z => negb (z =? 0)%Z
  | JFloat f => negb (f =? 0)
  | JStr s => negb (PyStr.is_empty s)
  | JArr items => match items with [] => false | _ => true end
  | JObj members => match members with [] => false | _ => true end
  end.

(** [float(v)] *)
Definition py_float (v : json) : result float :=
  match v with
  | JStr s => PyNum.float_of_str s
  | JInt z => PyNum.float_of_int z
  | JFloat f => Ok f
  | JBool b => Ok (if b then 1 else 0)
  | JNull | JArr _ | JObj _ => Raise (Exn TypeError None)
  end.

(** [v.lower()] and [v.strip()]: only a [str] has these methods *)
Definition py_lower (v : json) : result string :=
  match v with
  | JStr s => Ok (PyStr.lower s)
  | _ => Raise (Exn AttributeError None)
  end.

Definition py_strip (v : json) : result string :=
  match v with
  | JStr s => Ok (PyStr.strip s)
  | _ => Raise (Exn AttributeError None)
  end.

(** [data[key]] *)
Definition getitem (data : gmap string json) (key : string) : result json :=
  match data !! key with
  | Some v => Ok v
  | None => Raise (Exn KeyError (Some key))
  end.

(** ** calculate_bmr *)

Definition gender_error : string := "Gender must be 'male' or 'female'".

Definition calculate_bmr (gender : string) (weight height age : float)
  : result float :=
  if String.eqb (PyStr.lower gender) "male" then
    Ok (88.362 + (13.397 * weight) + (4.799 * height) - (5.677 * age))
  else if String.eqb (PyStr.lower gender) "female" then
    Ok (447.593 + (9.247 * weight) + (3.098 * height) - (4.33 * age))
  else Raise (Exn ValueError (Some gender_error)).

(** ** validate_user_data *)

Definition required_fields : list string :=
  ["name"; "age"; "weight"; "height"; "gender"; "goal"].

(** [field not in data or not data[field]] *)
Definition missing (data : gmap string json) (field : string) : bool :=
  match data !! field with
  | None => true
  | Some v => negb (truthy v)
  end.

Definition required_errors (data : gmap string json) : list string :=
  (fun field => field +:+ " is required") <$>
    List.filter (missing data) required_fields.

(** One [if field in data: try: ... except ValueError: ...] block.  Only a
    [ValueError] is handled; any other exception leaves the function. *)
Definition numeric_errors (data : gmap string json) (field : string)
    (upper : float) (range_msg parse_msg : string) : result (list string) :=
  match data !! field with
  | None => Ok []
  | Some v =>
      match py_float v with
      | Ok x => Ok (if (x <=? 0) || (upper <? x) then [range_msg] else [])
      | Raise (Exn ValueError _) => Ok [parse_msg]
      | Raise e => Raise e
      end
  end.

Definition gender_errors (data : gmap string json) : result (list string) :=
  match data !! "gender" with
  | None => Ok []
  | Some v =>
      g ← py_lower v;
      Ok (if String.eqb g "male" || String.eqb g "female" then []
          else [gender_error])
  end.

Definition validate_user_data (data : gmap string json)
  : result (list string) :=
  let errors := required_errors data in
  age ← numeric_errors data "age" 150
          "Age must be between 1 and 150" "Age must be a valid number";
  weight ← numeric_errors data "weight" 500
          "Weight must be between 1 and 500 kg" "Weight must be a valid number";
  height ← numeric_errors data "height" 300
          "Height must be between 1 and 300 cm" "Height must be a valid number";
  gender ← gender_errors data;
  Ok (errors ++ age ++ weight ++ height ++ gender)%list.

(** ** The stores *)

(** A number as the records hold it: the registration stores [float]s, the
    webhook defaults are [int] literals. *)
Inductive num :=
| NInt (z : Z)
| NFloat (f : float).

Record UserRecord : Type := mkUser {
  user_name : string;
  user_age : num;
  user_weight : num;
  user_height : num;
  user_gender : string;
  user_goal : json;
  user_bmr : float;
  registered_at : string
}.

Record MealEntry : Type := mkMeal {
  userId : string;
  mealType : string;
  foodItems : list string;
  nutrition : Nutrition;
  loggedAt : string
}.

(** The two module-level stores.  [save_data] rewrites the two files from
    them and leaves them as they are; the routes below are the routes when
    it returns, and [after_save] adds the case in which it raises. *)
Record state : Type := mkState {
  users_db : gmap string UserRecord;
  meals_db : list MealEntry
}.

Definition empty_state : state := mkState ∅ [].

(** ** Responses *)

Inductive payload :=
| Error (msg : string)
| ValidationFailed (details : list string)
| Registered (u : UserRecord)
| InvalidFormat
| MealLogged (user meal_type : string) (food_items : list string)
    (totals : Nutrition)
| Failure (e : exn).

Record response : Type := mkResponse {
  status : Z;
  body : payload
}.

(** [except Exception as e: return jsonify({"error": str(e)}), 500]: apart
    from [save_data()], which is treated separately by [after_save], both
    routes change the stores only after the last call that can raise, so
    for these exceptions the handler sees the stores of the request's
    start. *)
Definition handle (st : state) (r : result (response * state))
  : response * state :=
  match r with
  | Ok out => out
  | Raise e => (mkResponse 500 (Failure e), st)
  end.

(** ** POST /register

    [now] stands for [datetime.now().isoformat()], [data] for the JSON
    object of the request. *)

Definition bmr_of_request (gender : json) (weight height age : float)
  : result float :=
  match gender with
  | JStr g => calculate_bmr g weight height age
  | _ => Raise (Exn AttributeError None)
  end.

Definition register_user (now : string) (data : gmap string json)
    (st : state) : response * state :=
  if (size data =? 0)%nat then
    (mkResponse 400 (Error "No data provided"), st)
  else handle st (
    validation_errors ← validate_user_data data;
    match validation_errors with
    | _ :: _ => Ok (mkResponse 400 (ValidationFailed validation_errors), st)
    | [] =>
        name ← getitem data "name";
        username ← py_strip name;
        match users_db st !! username with
        | Some _ => Ok (mkResponse 409 (Error "User already exists"), st)
        | None =>
            gender ← getitem data "gender";
            weight ← getitem data "weight" ≫= py_float;
            height ← getitem data "height" ≫= py_float;
            age ← getitem data "age" ≫= py_float;
            bmr ← bmr_of_request gender weight height age;
            age' ← getitem data "age" ≫= py_float;
            weight' ← getitem data "weight" ≫= py_float;
            height' ← getitem data "height" ≫= py_float;
            gender' ← getitem data "gender" ≫= py_lower;
            goal ← getitem data "goal";
            let user_data :=
              {| user_name := username;
                 user_age := NFloat age';
                 user_weight := NFloat weight';
                 user_height := NFloat height';
                 user_gender := gender';
                 user_goal := goal;
                 user_bmr := PyNum.round2 bmr;
                 registered_at := now |} in
            Ok (mkResponse 201 (Registered user_data),
                mkState (<[username := user_data]> (users_db st))
                        (meals_db st))
        end
    end).

(** ** POST /webhook *)

(** The request body: [message] may be absent and may be any JSON value;
    [user], when present, is a string. *)
Record webhook_request : Type := mkWebhook {
  wh_message : option json;
  wh_user : option string
}.

(** Lines 318-332: normalise, match, split.  [None] is the no-match
    branch. *)
Definition parse_message (raw : string) : option (string * list string) :=
  let message := PyStr.lower (PyStr.strip raw) in
  match Regex.match_pattern message with
  | None => None
  | Some (meal_type, food_items_str) =>
      Some (meal_type, PyStr.strip <$> PyStr.split "," food_items_str)
  end.

(** The record the webhook stores for a user it does not know. *)
Definition default_user (user now : string) : result UserRecord :=
  bmr ← calculate_bmr "male" 70 170 25;
  Ok {| user_name := user;
        user_age := NInt 25;
        user_weight := NInt 70;
        user_height := NInt 170;
        user_gender := "male";
        user_goal := JStr "maintain";
        user_bmr := bmr;
        registered_at := now |}.

Definition webhook (now : string) (data : webhook_request) (st : state)
  : response * state :=
  match wh_message data with
  | None => (mkResponse 400 (Error "Message is required"), st)
  | Some m =>
      handle st (
        raw ← match m with
              | JStr s => Ok s
              | _ => Raise (Exn AttributeError None)
              end;
        let user := default "default_user" (wh_user data) in
        match parse_message raw with
        | None => Ok (mkResponse 400 InvalidFormat, st)
        | Some (meal_type, food_items) =>
            users ← match users_db st !! user with
                    | Some _ => Ok (users_db st)
                    | None =>
                        u ← default_user user now;
                        Ok (<[user := u]> (users_db st))
                    end;
            let totals := calculate_nutrition food_items in
            let meal_entry :=
              {| userId := user;
                 mealType := PyStr.capitalize meal_type;
                 foodItems := food_items;
                 nutrition := totals;
                 loggedAt := now |} in
            Ok (mkResponse 201 (MealLogged user meal_type food_items totals),
                mkState users (meals_db st ++ [meal_entry])%list)
        end)
  end.

(** ** Requests used as examples *)

Definition registration (name age weight height gender goal : string)
  : gmap string json :=
  list_to_map [("name", JStr name); ("age", JStr age);
               ("weight", JStr weight); ("height", JStr height);
               ("gender", JStr gender); ("goal", JStr goal)].

(** [{name:"A", age:"200", weight:"70", height:"170", gender:"male",
    goal:"lose"}] *)
Definition request_age_200 : gmap string json :=
  registration "A" "200" "70" "170" "male" "lose".

Definition request_age_text : gmap string json :=
  registration "A" "abc" "900" "170" "male" "lose".

Definition request_asha : gmap string json :=
  registration " Asha " "30" "60" "165" "Female" "maintain".

Definition request_asha_again : gmap string json :=
  registration "Asha" "41" "82.5" "165" "female" "lose".

Definition request_asha_invalid : gmap string json :=
  registration "Asha" "200" "60" "165" "female" "lose".

Definition webhook_bob : webhook_request :=
  mkWebhook (Some (JStr "log lunch: dal")) (Some "bob").

(** ** Replies of the other routes *)

(** [jsonify(content), status], [jsonify({"error": msg}), status] and the
    500 of the [except Exception] handler. *)
Inductive reply (A : Type) :=
| Done (code : Z) (content : A)
| Rejected (code : Z) (msg : string)
| Crashed (e : exn).
Arguments Done {A} code content.
Arguments Rejected {A} code msg.
Arguments Crashed {A} e.

Definition reply_code {A : Type} (r : reply A) : Z :=
  match r with
  | Done code _ => code
  | Rejected code _ => code
  | Crashed _ => 500%Z
  end.

Definition catch {A : Type} (st : state) (r : result (reply A * state))
  : reply A * state :=
  match r with
  | Ok out => out
  | Raise e => (Crashed e, st)
  end.

(** ** POST /log_meals *)

(** The [items] member: an array of item names, or a JSON value that is not
    an array. *)
Inductive items_value :=
| ItemsArray (names : list string)
| ItemsOther.

(** The JSON object of the request: its [items] member, when there is one,
    and its other members. *)
Record meal_request : Type := mkMealRequest {
  mr_members : gmap string json;
  mr_items : option items_value
}.

Definition valid_meals : list string :=
  ["breakfast"; "lunch"; "dinner"; "snack"].

(** [f"Meal type must be one of: {valid_meals}"] *)
Definition valid_meals_error : string :=
  "Meal type must be one of: ['breakfast', 'lunch', 'dinner', 'snack']".

(** [x in l] for strings *)
Definition str_in (x : string) (l : list string) : bool :=
  existsb (String.eqb x) l.

(** [not data]: the object has no member at all *)
Definition no_members (data : meal_request) : bool :=
  (size (mr_members data) =? 0)%nat &&
  match mr_items data with None => true | Some _ => false end.

Definition log_meals (now : string) (data : meal_request) (st : state)
  : reply MealEntry * state :=
  if no_members data
  then (Rejected 400 "No data provided", st)
  else
    match mr_members data !! "user", mr_members data !! "meal",
          mr_items data with
    | None, _, _ => (Rejected 400 "user is required", st)
    | Some _, None, _ => (Rejected 400 "meal is required", st)
    | Some _, Some _, None => (Rejected 400 "items is required", st)
    | Some user, Some meal, Some food_items =>
        catch st (
          username ← py_strip user;
          stripped ← py_strip meal;
          let meal_type := PyStr.lower stripped in
          match users_db st !! username with
          | None => Ok (Rejected 404 "User not found", st)
          | Some _ =>
              if negb (str_in meal_type valid_meals)
              then Ok (Rejected 400 valid_meals_error, st)
              else
                match food_items with
                | ItemsOther | ItemsArray [] =>
                    Ok (Rejected 400 "Items must be a non-empty array", st)
                | ItemsArray names =>
                    let totals := calculate_nutrition names in
                    let meal_entry :=
                      {| userId := username;
                         mealType := PyStr.capitalize meal_type;
                         foodItems := names;
                         nutrition := totals;
                         loggedAt := now |} in
                    Ok (Done 201 meal_entry,
                        mkState (users_db st)
                                (meals_db st ++ [meal_entry])%list)
                end
          end)
    end.

(** ** GET /meals/<user> and GET /meals/<user>/<date> *)

Record meal_listing : Type := mkListing {
  listing_user : string;
  listing_date : option string;
  total_meals : nat;
  meals : list MealEntry
}.

(** [s[:n]] *)
Fixpoint str_prefix (n : nat) (s : string) : string :=
  match n, s with
  | S n', String c s' => String c (str_prefix n' s')
  | _, _ => EmptyString
  end.

(** [meal['loggedAt'][:10]] *)
Definition meal_date (meal : MealEntry) : string :=
  str_prefix 10 (loggedAt meal).

(** [[meal for meal in meals_db if meal['userId'] == user]] *)
Definition meals_of (user : string) (st : state) : list MealEntry :=
  List.filter (fun meal => String.eqb (userId meal) user) (meals_db st).

Definition get_user_meals (user : string) (st : state) : reply meal_listing :=
  match users_db st !! user with
  | None => Rejected 404 "User not found"
  | Some _ =>
      let user_meals := meals_of user st in
      Done 200 (mkListing user None (length user_meals) user_meals)
  end.

Definition get_user_meals_by_date (user date : string) (st : state)
  : reply meal_listing :=
  match users_db st !! user with
  | None => Rejected 404 "User not found"
  | Some _ =>
      let user_meals :=
        List.filter
          (fun meal => String.eqb (userId meal) user &&
                       String.eqb (meal_date meal) date)
          (meals_db st) in
      Done 200 (mkListing user (Some date) (length user_meals) user_meals)
  end.

(** ** GET /status/<user>

    [today] stands for [datetime.now().strftime('%Y-%m-%d')].  The totals
    are sums of [int]s, which [round(_, 2)] returns as they are. *)

Record status_report : Type := mkStatus {
  status_user : string;
  status_bmr : float;
  status_goal : json;
  total_nutrition_consumed : Nutrition;
  today_date : string;
  today_nutrition : Nutrition;
  total_meals_logged : nat;
  meals_today : nat
}.

(** [for meal in ...: for nutrient in total: total[nutrient] +=
    meal['nutrition'].get(nutrient, 0)] *)
Definition sum_meals (some_meals : list MealEntry) : Nutrition :=
  fold_left (fun total meal => add_nutrition total (nutrition meal))
            some_meals zero_nutrition.

Definition get_user_status (today user : string) (st : state)
  : reply status_report :=
  match users_db st !! user with
  | None => Rejected 404 "User not found"
  | Some user_data =>
      let user_meals := meals_of user st in
      let today_meals :=
        List.filter (fun meal => String.eqb (meal_date meal) today)
                    user_meals in
      Done 200
        {| status_user := user;
           status_bmr := user_bmr user_data;
           status_goal := user_goal user_data;
           total_nutrition_consumed := sum_meals user_meals;
           today_date := today;
           today_nutrition := sum_meals today_meals;
           total_meals_logged := length user_meals;
           meals_today := length today_meals |}
  end.

(** ** Sequences of requests *)

Inductive request :=
| Register (now : string) (data : gmap string json)
| LogMeals (now : string) (data : meal_request)
| Webhook (now : string) (data : webhook_request).

(** The stores after one request that writes. *)
Definition apply_request (r : request) (st : state) : state :=
  match r with
  | Register now data => snd (register_user now data st)
  | LogMeals now data => snd (log_meals now data st)
  | Webhook now data => snd (webhook now data st)
  end.

Definition run (requests : list request) (st : state) : state :=
  fold_left (fun st r => apply_request r st) requests st.

(** ** What the stores keep *)

(** Every meal belongs to a user of the user store. *)
Definition meals_have_users (st : state) : Prop :=
  Forall (fun meal => is_Some (users_db st !! userId meal)) (meals_db st).

(** Every meal carries the totals of its own items and a capitalised meal
    type. *)
Definition meals_snapshot (st : state) : Prop :=
  Forall (fun meal =>
            nutrition meal = calculate_nutrition (foodItems meal) ∧
            mealType meal ∈ ["Breakfast"; "Lunch"; "Dinner"; "Snack"])
         (meals_db st).

(** Every record is stored under its own name. *)
Definition users_keyed_by_name (st : state) : Prop :=
  ∀ key u, users_db st !! key = Some u -> user_name u = key.

Definition nonneg (n : Nutrition) : Prop :=
  (0 <= calories n ∧ 0 <= protein n ∧ 0 <= carbs n ∧ 0 <= fiber n)%Z.

Definition le_nutrition (a b : Nutrition) : Prop :=
  (calories a <= calories b ∧ protein a <= protein b ∧
   carbs a <= carbs b ∧ fiber a <= fiber b)%Z.

(** ** Requests that validation lets through *)

(** Neither [x <= 0] nor [x > upper] *)
Definition accepted (upper x : float) : bool :=
  negb ((x <=? 0) || (upper <? x)).

Definition numeric_ok (data : gmap string json) (field : string)
    (upper : float) : Prop :=
  ∃ v x, data !! field = Some v ∧ py_float v = Ok x ∧ accepted upper x = true.

Definition well_formed (data : gmap string json) : Prop :=
  (∀ field, field ∈ required_fields ->
     ∃ v, data !! field = Some v ∧ truthy v = true) ∧
  numeric_ok data "age" 150 ∧
  numeric_ok data "weight" 500 ∧
  numeric_ok data "height" 300 ∧
  ∃ g, data !! "gender" = Some (JStr g) ∧
       (PyStr.lower g = "male" ∨ PyStr.lower g = "female").

(** ** A history used as an example *)

Definition meal_request_asha : meal_request :=
  mkMealRequest
    (list_to_map [("user", JStr " Asha "); ("meal", JStr " Lunch ")])
    (Some (ItemsArray ["Jeera Rice"; "Dal"; "ghee"])).

Definition meal_request_asha_snack : meal_request :=
  mkMealRequest
    (list_to_map [("user", JStr "Asha"); ("meal", JStr "snack")])
    (Some (ItemsArray ["Salad"])).

Definition meal_request_stranger : meal_request :=
  mkMealRequest
    (list_to_map [("user", JStr "nobody"); ("meal", JStr "brunch")])
    (Some ItemsOther).

Definition example_history : list request :=
  [Register "2024-01-01T09:00:00" request_asha;
   LogMeals "2024-01-01T12:30:00" meal_request_asha;
   Webhook "2024-01-02T08:00:00" webhook_bob;
   LogMeals "2024-01-02T16:00:00" meal_request_asha_snack].

Definition example_state : state := run example_history empty_state.

(** ** save_data()

    The three writing routes call [save_data()] as their last step, inside
    the [try] and after the stores are changed (lines 154-155, 203-204 and
    356-357).  [register_user], [log_meals] and [webhook] above are the
    routes when that call returns.  [save] says what the call does when it
    is reached: [None] when it returns, [Some msg] when it raises an
    exception [e] with [str(e) = msg]; the handler then answers 500 with
    [{"error": msg}], and the stores stay as the route left them.  The call
    is reached on the path that ends in the 201 and on no other. *)

Definition after_save (save : option string) (out : response * state)
  : response * state :=
  match save with
  | Some msg =>
      if (status (fst out) =? 201)%Z
      then (mkResponse 500 (Error msg), snd out)
      else out
  | None => out
  end.

Definition after_save_reply {A : Type} (save : option string)
    (out : reply A * state) : reply A * state :=
  match save with
  | Some msg =>
      if (reply_code (fst out) =? 201)%Z
      then (Rejected 500 msg, snd out)
      else out
  | None => out
  end.

Definition register_user_saving (save : option string) (now : string)
    (data : gmap string json) (st : state) : response * state :=
  after_save save (register_user now data st).

Definition webhook_saving (save : option string) (now : string)
    (data : webhook_request) (st : state) : response * state :=
  after_save save (webhook now data st).

Definition log_meals_saving (save : option string) (now : string)
    (data : meal_request) (st : state) : reply MealEntry * state :=
  after_save_reply save (log_meals now data st).

(** ** Equality of meals, to count occurrences *)

#[global] Instance Nutrition_eq_dec : EqDecision Nutrition.
Proof. solve_decision. Defined.

#[global] Instance MealEntry_eq_dec : EqDecision MealEntry.
Proof. solve_decision. Defined.

(** * Properties *)

Local Close Scope float_scope.
Local Open Scope list_scope.

(** ** Strings *)

Lemma forallb_app (p : ascii -> bool) (s t : string) :
  PyStr.forallb p (s +:+ t) = PyStr.forallb p s && PyStr.forallb p t.
Proof.
  induction s as [|c s IH]; simpl; [done|].
  by rewrite IH, andb_assoc.
Qed.

Lemma lower_char_not_upper (c : ascii) :
  PyStr.is_upper (PyStr.lower_char c) = false.
Proof. destruct c as [[] [] [] [] [] [] [] []]; reflexivity. Qed.

Lemma no_upper_lower (s : string) : PyStr.no_upper (PyStr.lower s) = true.
Proof.
  unfold PyStr.no_upper, PyStr.lower.
  induction s as [|c s IH]; simpl; [done|].
  by rewrite lower_char_not_upper.
Qed.

Lemma forallb_lstrip (p : ascii -> bool) (s : string) :
  PyStr.forallb p s = true -> PyStr.forallb p (PyStr.lstrip s) = true.
Proof.
  induction s as [|c s IH]; simpl; [done|].
  intros [Hc Hs]%andb_prop.
  destruct (PyStr.is_space c); [by apply IH|].
  simpl. by rewrite Hc, Hs.
Qed.

Lemma forallb_rstrip (p : ascii -> bool) (s : string) :
  PyStr.forallb p s = true -> PyStr.forallb p (PyStr.rstrip s) = true.
Proof.
  induction s as [|c s IH]; simpl; [done|].
  intros [Hc Hs]%andb_prop.
  destruct (PyStr.is_space c && PyStr.is_empty (PyStr.rstrip s)); [done|].
  simpl. by rewrite Hc, IH.
Qed.

Lemma forallb_strip (p : ascii -> bool) (s : string) :
  PyStr.forallb p s = true -> PyStr.forallb p (PyStr.strip s) = true.
Proof. intros H. by apply forallb_rstrip, forallb_lstrip. Qed.

Lemma split_not_nil (sep : ascii) (s : string) : PyStr.split sep s ≠ [].
Proof.
  destruct s as [|c s]; simpl; [done|].
  destruct (Ascii.eqb c sep); [done|].
  by destruct (PyStr.split sep s).
Qed.

Lemma forallb_split (p : ascii -> bool) (sep : ascii) (s : string) :
  PyStr.forallb p s = true ->
  Forall (fun piece => PyStr.forallb p piece = true) (PyStr.split sep s).
Proof.
  induction s as [|c s IH]; simpl.
  - intros _. by repeat constructor.
  - intros [Hc Hs]%andb_prop. specialize (IH Hs).
    destruct (Ascii.eqb c sep); [by constructor|].
    destruct (PyStr.split sep s) as [|piece pieces].
    + repeat constructor. simpl. by rewrite Hc.
    + inversion IH; subst. constructor; [|done]. simpl. by rewrite Hc.
Qed.

(** The split loses nothing: there is one piece more than separators, no
    piece holds a separator, and joining the pieces gives the text back. *)
Lemma split_length (sep : ascii) (s : string) :
  length (PyStr.split sep s) = S (PyStr.count sep s).
Proof.
  induction s as [|c s IH]; simpl; [done|].
  destruct (Ascii.eqb c sep); simpl; [by rewrite IH|].
  pose proof (split_not_nil sep s).
  destruct (PyStr.split sep s); [done|]. simpl in *. lia.
Qed.

Lemma split_pieces_no_sep (sep : ascii) (s : string) :
  Forall (fun piece => PyStr.count sep piece = 0) (PyStr.split sep s).
Proof.
  induction s as [|c s IH]; simpl.
  - by repeat constructor.
  - destruct (Ascii.eqb c sep) eqn:Hc; [by constructor|].
    destruct (PyStr.split sep s) as [|piece pieces].
    + repeat constructor. simpl. by rewrite Hc.
    + inversion IH; subst. constructor; [|done]. simpl. by rewrite Hc.
Qed.

Lemma join_split (sep : ascii) (s : string) :
  PyStr.join sep (PyStr.split sep s) = s.
Proof.
  induction s as [|c s IH]; simpl; [done|].
  pose proof (split_not_nil sep s) as Hne.
  destruct (Ascii.eqb_spec c sep) as [->|Hc].
  - destruct (PyStr.split sep s) as [|piece pieces]; [done|].
    simpl in *. by rewrite IH.
  - destruct (PyStr.split sep s) as [|piece pieces]; [done|].
    destruct pieces as [|piece' pieces]; simpl in *; by rewrite <- IH.
Qed.

Lemma split_endswith (sep : ascii) (s : string) :
  PyStr.endswith_char sep s = true ->
  last (PyStr.split sep s) = Some EmptyString.
Proof.
  induction s as [|c s IH]; [done|].
  destruct s as [|c' s].
  - simpl. by intros ->.
  - remember (String c' s) as t eqn:Ht.
    intros H.
    assert (PyStr.endswith_char sep t = true) as Ht' by (by subst t).
    specialize (IH Ht').
    pose proof (join_split sep t) as Hj.
    simpl. destruct (Ascii.eqb c sep).
    + destruct (PyStr.split sep t); [done|]. exact IH.
    + destruct (PyStr.split sep t) as [|piece [|piece' pieces]]; [done| |exact IH].
      simpl in IH, Hj. congruence.
Qed.

(** ** The pattern: what a successful match consumed *)

Section RegexInversion.
Context {R : Type}.

Lemma lit_inv (p s : string) (k : string -> option R) (r : R) :
  Regex.lit p s k = Some r -> ∃ s', s = p +:+ s' ∧ k s' = Some r.
Proof.
  revert s. induction p as [|a p IH]; intros s; simpl.
  - intros H. by exists s.
  - destruct s as [|c s]; [done|].
    destruct (Ascii.eqb_spec a c) as [->|]; [|done].
    intros (s' & -> & Hk)%IH. by exists s'.
Qed.

Lemma star_inv (p : ascii -> bool) (s : string) (k : string -> option R)
    (r : R) :
  Regex.star p s k = Some r ->
  ∃ w s', s = w +:+ s' ∧ PyStr.forallb p w = true ∧ k s' = Some r.
Proof.
  induction s as [|c s IH]; simpl.
  - intros H. by exists EmptyString, EmptyString.
  - destruct (p c) eqn:Hc.
    + destruct (Regex.star p s k) as [r'|] eqn:E.
      * intros [= ->]. destruct (IH eq_refl) as (w & s' & -> & Hw & Hk).
        exists (String c w), s'. simpl. by rewrite Hc, Hw.
      * intros H. by exists EmptyString, (String c s).
    + intros H. by exists EmptyString, (String c s).
Qed.

Lemma plus_inv (p : ascii -> bool) (s : string) (k : string -> option R)
    (r : R) :
  Regex.plus p s k = Some r ->
  ∃ w s', s = w +:+ s' ∧ w ≠ EmptyString ∧ PyStr.forallb p w = true ∧
          k s' = Some r.
Proof.
  destruct s as [|c s]; simpl; [done|].
  destruct (p c) eqn:Hc; [|done].
  intros (w & s' & -> & Hw & Hk)%star_inv.
  exists (String c w), s'. simpl. by rewrite Hc, Hw.
Qed.

Lemma star_group_inv (p : ascii -> bool) (s : string)
    (k : string -> string -> option R) (r : R) :
  Regex.star_group p s k = Some r ->
  ∃ g s', s = g +:+ s' ∧ PyStr.forallb p g = true ∧ k g s' = Some r.
Proof.
  revert k. induction s as [|c s IH]; intros k; simpl.
  - intros H. by exists EmptyString, EmptyString.
  - destruct (p c) eqn:Hc.
    + destruct (Regex.star_group p s _) as [r'|] eqn:E.
      * intros [= ->]. destruct (IH _ E) as (g & s' & -> & Hg & Hk).
        exists (String c g), s'. simpl. by rewrite Hc, Hg.
      * intros H. by exists EmptyString, (String c s).
    + intros H. by exists EmptyString, (String c s).
Qed.

Lemma plus_group_inv (p : ascii -> bool) (s : string)
    (k : string -> string -> option R) (r : R) :
  Regex.plus_group p s k = Some r ->
  ∃ g s', s = g +:+ s' ∧ g ≠ EmptyString ∧ PyStr.forallb p g = true ∧
          k g s' = Some r.
Proof.
  destruct s as [|c s]; simpl; [done|].
  destruct (p c) eqn:Hc; [|done].
  intros (g & s' & -> & Hg & Hk)%star_group_inv.
  exists (String c g), s'. simpl. by rewrite Hc, Hg.
Qed.

Lemma alt_group_inv (alts : list string) (s : string)
    (k : string -> string -> option R) (r : R) :
  Regex.alt_group alts s k = Some r ->
  ∃ a s', a ∈ alts ∧ s = a +:+ s' ∧ k a s' = Some r.
Proof.
  induction alts as [|a alts IH]; simpl; [done|].
  destruct (Regex.lit a s (k a)) as [r'|] eqn:E.
  - intros [= ->]. apply lit_inv in E as (s' & -> & Hk).
    exists a, s'. split; [by left|done].
  - intros (a' & s' & Ha & -> & Hk)%IH.
    exists a', s'. split; [by right|done].
Qed.

End RegexInversion.

(** A successful match reads, from the start of the message: [log], blanks,
    a meal type, a colon, blanks, and a non-empty run without line feed that
    is the second group. *)
Lemma match_pattern_inv (message g1 g2 : string) :
  Regex.match_pattern message = Some (g1, g2) ->
  g1 ∈ Regex.meal_types ∧
  ∃ w1 w2 tail,
    message = "log" +:+ w1 +:+ g1 +:+ ":" +:+ w2 +:+ g2 +:+ tail ∧
    w1 ≠ EmptyString ∧ PyStr.forallb PyStr.is_space w1 = true ∧
    PyStr.forallb PyStr.is_space w2 = true ∧
    g2 ≠ EmptyString ∧ PyStr.forallb Regex.dot g2 = true.
Proof.
  unfold Regex.match_pattern.
  intros (s1 & -> & H)%lit_inv.
  apply plus_inv in H as (w1 & s2 & -> & Hw1 & Hs1 & H).
  apply alt_group_inv in H as (a & s3 & Ha & -> & H).
  apply lit_inv in H as (s4 & -> & H).
  apply star_inv in H as (w2 & s5 & -> & Hs2 & H).
  apply plus_group_inv in H as (g & tail & -> & Hg & Hdot & [= -> ->]).
  split; [done|]. by exists w1, w2, tail.
Qed.

(** ** Aggregation *)

Lemma add_nutrition_zero_r (t : Nutrition) : add_nutrition t zero_nutrition = t.
Proof. destruct t. unfold add_nutrition; simpl. f_equal; lia. Qed.

Lemma add_nutrition_assoc (a b c : Nutrition) :
  add_nutrition (add_nutrition a b) c = add_nutrition a (add_nutrition b c).
Proof. unfold add_nutrition; simpl. f_equal; lia. Qed.

Lemma add_nutrition_comm (a b : Nutrition) :
  add_nutrition a b = add_nutrition b a.
Proof. unfold add_nutrition; simpl. f_equal; lia. Qed.

Lemma nutrition_step_add (total : Nutrition) (item : string) :
  nutrition_step total item =
  add_nutrition total (default zero_nutrition (food_db !! item)).
Proof.
  unfold nutrition_step. destruct (food_db !! item); simpl; [done|].
  by rewrite add_nutrition_zero_r.
Qed.

Lemma nutrition_step_swap (total : Nutrition) (a b : string) :
  nutrition_step (nutrition_step total a) b =
  nutrition_step (nutrition_step total b) a.
Proof.
  rewrite !nutrition_step_add, !add_nutrition_assoc.
  f_equal. apply add_nutrition_comm.
Qed.

(** The loop started from any totals adds the loop started from zero. *)
Lemma fold_nutrition_from (total : Nutrition) (items : list string) :
  fold_left nutrition_step items total =
  add_nutrition total (calculate_nutrition items).
Proof.
  unfold calculate_nutrition. revert total.
  induction items as [|item items IH]; intros total; simpl.
  - by rewrite add_nutrition_zero_r.
  - rewrite (IH (nutrition_step total item)),
      (IH (nutrition_step zero_nutrition item)).
    rewrite !nutrition_step_add, !add_nutrition_assoc. by f_equal.
Qed.

Lemma calculate_nutrition_cons (item : string) (items : list string) :
  calculate_nutrition (item :: items) =
  add_nutrition (default zero_nutrition (food_db !! item))
                (calculate_nutrition items).
Proof.
  unfold calculate_nutrition at 1. simpl.
  rewrite fold_nutrition_from, nutrition_step_add. by f_equal.
Qed.

Lemma calculate_nutrition_app (l1 l2 : list string) :
  calculate_nutrition (l1 ++ l2) =
  add_nutrition (calculate_nutrition l1) (calculate_nutrition l2).
Proof.
  unfold calculate_nutrition at 1 2.
  by rewrite fold_left_app, fold_nutrition_from.
Qed.

Lemma sum_facts_cons (n : Nutrition) (facts : list Nutrition) :
  sum_facts (n :: facts) = add_nutrition n (sum_facts facts).
Proof. reflexivity. Qed.

Lemma calculate_nutrition_recognised (food_items : list string) :
  calculate_nutrition food_items = sum_facts (recognised food_items).
Proof.
  induction food_items as [|item items IH]; [done|].
  rewrite calculate_nutrition_cons, IH. unfold recognised. simpl.
  destruct (food_db !! item) as [n|]; simpl; [done|].
  by destruct (sum_facts _).
Qed.

Lemma calculate_nutrition_perm (l l' : list string) :
  Permutation l l' -> calculate_nutrition l = calculate_nutrition l'.
Proof.
  unfold calculate_nutrition. generalize zero_nutrition.
  intros total H. revert total.
  induction H as [|x l l' _ IH|x y l|l l' l'' _ IH1 _ IH2]; intros total;
    simpl.
  - done.
  - apply IH.
  - by rewrite nutrition_step_swap.
  - by rewrite IH1.
Qed.

Lemma calculate_nutrition_unknown (l : list string) :
  Forall (fun item => food_db !! item = None) l ->
  calculate_nutrition l = zero_nutrition.
Proof.
  induction 1 as [|item l Hitem _ IH]; [done|].
  by rewrite calculate_nutrition_cons, Hitem, IH.
Qed.

(** Every name of the catalog has an upper-case letter. *)
Lemma food_db_no_upper (item : string) :
  PyStr.no_upper item = true -> food_db !! item = None.
Proof.
  intros Hitem. destruct (food_db !! item) as [n|] eqn:E; [|done].
  exfalso. unfold food_db in E.
  apply elem_of_list_to_map_2 in E.
  repeat (apply elem_of_cons in E as [[= -> _]|E]; [by vm_compute in Hitem|]).
  by apply elem_of_nil in E.
Qed.

(** C4: for every list of item names the aggregation is the field-by-field
    sum of the catalog facts of the items the catalog knows, each occurrence
    counted once; wherever an item stands in the list it adds exactly its
    catalog facts, or zero in every field when the catalog does not know it.
    The function is total: no list makes it fail. *)
Theorem calculate_nutrition_is_sum :
  ∀ food_items : list string,
    calculate_nutrition food_items = sum_facts (recognised food_items) ∧
    ∀ (before after : list string) (item : string),
      food_items = before ++ item :: after ->
      calculate_nutrition food_items =
      add_nutrition (calculate_nutrition (before ++ after))
                    (default zero_nutrition (food_db !! item)).
Proof.
  intros food_items. split; [apply calculate_nutrition_recognised|].
  intros before after item ->.
  rewrite !calculate_nutrition_app, calculate_nutrition_cons.
  rewrite add_nutrition_assoc. f_equal. apply add_nutrition_comm.
Qed.

Lemma calculate_nutrition_is_sum_witness :
  calculate_nutrition ["Dal"; "Ghee"; "Dal"] =
  add_nutrition (calculate_nutrition ["Dal"; "Dal"])
                (default zero_nutrition (food_db !! "Ghee")).
Proof.
  exact (proj2 (calculate_nutrition_is_sum ["Dal"; "Ghee"; "Dal"])
           ["Dal"] ["Dal"] "Ghee" eq_refl).
Defined.

(** C6: the totals do not depend on the order of the list; the empty list
    and a list of names the catalog does not know give all-zero totals. *)
Theorem calculate_nutrition_order_and_zero :
  (∀ l l' : list string,
     Permutation l l' -> calculate_nutrition l = calculate_nutrition l') ∧
  calculate_nutrition [] = zero_nutrition ∧
  (∀ l : list string,
     Forall (fun item => food_db !! item = None) l ->
     calculate_nutrition l = zero_nutrition).
Proof.
  split; [exact calculate_nutrition_perm|].
  split; [reflexivity|exact calculate_nutrition_unknown].
Qed.

Lemma calculate_nutrition_order_and_zero_witness :
  calculate_nutrition ["Roti"; "Dal"; "Rice"] =
  calculate_nutrition ["Dal"; "Rice"; "Roti"] ∧
  calculate_nutrition ["dal"; "Ghee"] = zero_nutrition.
Proof.
  split.
  - apply (proj1 calculate_nutrition_order_and_zero).
    exact (Permutation_cons_append ["Dal"; "Rice"] "Roti").
  - apply (proj2 (proj2 calculate_nutrition_order_and_zero)).
    repeat constructor.
Defined.

(** ** The webhook *)

Lemma parse_message_inv (raw meal_type : string) (food_items : list string) :
  parse_message raw = Some (meal_type, food_items) ->
  ∃ rest,
    Regex.match_pattern (PyStr.lower (PyStr.strip raw)) = Some (meal_type, rest) ∧
    food_items = PyStr.strip <$> PyStr.split "," rest.
Proof.
  unfold parse_message.
  destruct (Regex.match_pattern _) as [[g1 g2]|]; [|done].
  intros [= <- <-]. by exists g2.
Qed.

(** What the webhook parses has no upper-case letter left. *)
Lemma parse_message_no_upper (raw meal_type : string)
    (food_items : list string) :
  parse_message raw = Some (meal_type, food_items) ->
  Forall (fun item => PyStr.no_upper item = true) food_items.
Proof.
  intros (rest & Hm & ->)%parse_message_inv.
  apply match_pattern_inv in Hm as (_ & w1 & w2 & tail & Hmsg & _).
  pose proof (no_upper_lower (PyStr.strip raw)) as Hlow.
  rewrite Hmsg in Hlow. unfold PyStr.no_upper in Hlow.
  rewrite !forallb_app in Hlow.
  repeat (apply andb_prop in Hlow as [? Hlow]).
  apply Forall_fmap.
  eapply Forall_impl; [by apply forallb_split|].
  intros piece Hpiece. by apply forallb_strip.
Qed.

Lemma default_user_ok (user now : string) :
  default_user user now =
  Ok (mkUser user (NInt 25) (NInt 70) (NInt 170) "male" (JStr "maintain")
        (88.362 + (13.397 * 70) + (4.799 * 170) - (5.677 * 25))%float now).
Proof. reflexivity. Qed.

(** A message that matches is logged: the response is 201 and one entry is
    appended to the meal store. *)
Lemma webhook_logged (now : string) (data : webhook_request) (st : state)
    (raw meal_type : string) (food_items : list string) :
  wh_message data = Some (JStr raw) ->
  parse_message raw = Some (meal_type, food_items) ->
  let user := default "default_user" (wh_user data) in
  let totals := calculate_nutrition food_items in
  fst (webhook now data st) =
    mkResponse 201 (MealLogged user meal_type food_items totals) ∧
  meals_db (snd (webhook now data st)) =
    meals_db st ++
      [mkMeal user (PyStr.capitalize meal_type) food_items totals now].
Proof.
  intros Hmsg Hparse. unfold webhook. rewrite Hmsg.
  cbv [handle mbind result_bind]. rewrite Hparse.
  destruct (users_db st !! _); [done|].
  by rewrite default_user_ok.
Qed.

(** C1, as the code has it: the message is lower-cased as a whole before
    the items are cut out, so the items of
    ["Log Lunch: Jeera Rice, Dal, Cucumber"] come out in lower case and the
    catalog knows none of them; the totals 446/18/69/8 are those of the
    names in their catalog spelling. *)
Theorem webhook_example_lowercased :
  parse_message "Log Lunch: Jeera Rice, Dal, Cucumber" =
    Some ("lunch", ["jeera rice"; "dal"; "cucumber"]) ∧
  fst (webhook "2024-01-01T12:00:00"
         (mkWebhook (Some (JStr "Log Lunch: Jeera Rice, Dal, Cucumber")) None)
         empty_state) =
    mkResponse 201
      (MealLogged "default_user" "lunch" ["jeera rice"; "dal"; "cucumber"]
         zero_nutrition) ∧
  calculate_nutrition ["Jeera Rice"; "Dal"; "Cucumber"] =
    mkNutrition 446 18 69 8.
Proof. repeat split; vm_compute; reflexivity. Qed.

(** C2: whenever the message of a webhook request matches the pattern, the
    meal entry that is recorded carries all-zero totals: no parsed item has
    an upper-case letter left, every catalog name has one, so the catalog
    knows none of the items. *)
Theorem webhook_totals_zero (now : string) (data : webhook_request)
    (st : state) (raw meal_type : string) (food_items : list string) :
  wh_message data = Some (JStr raw) ->
  parse_message raw = Some (meal_type, food_items) ->
  Forall (fun item => PyStr.no_upper item = true) food_items ∧
  (∀ key, is_Some (food_db !! key) -> PyStr.no_upper key = false) ∧
  Forall (fun item => food_db !! item = None) food_items ∧
  ∃ entry,
    meals_db (snd (webhook now data st)) = meals_db st ++ [entry] ∧
    foodItems entry = food_items ∧
    nutrition entry = zero_nutrition ∧
    fst (webhook now data st) =
      mkResponse 201
        (MealLogged (default "default_user" (wh_user data)) meal_type
           food_items zero_nutrition).
Proof.
  intros Hmsg Hparse.
  pose proof (parse_message_no_upper _ _ _ Hparse) as Hlow.
  assert (Forall (fun item => food_db !! item = None) food_items) as Hnone.
  { eapply Forall_impl; [exact Hlow|]. intros item. apply food_db_no_upper. }
  split; [done|]. split.
  { intros key [n Hkey]. destruct (PyStr.no_upper key) eqn:E; [|done].
    apply food_db_no_upper in E. congruence. }
  split; [done|].
  destruct (webhook_logged now data st raw meal_type food_items Hmsg Hparse)
    as [Hresp Hmeals].
  rewrite (calculate_nutrition_unknown _ Hnone) in Hresp, Hmeals.
  eexists. split; [exact Hmeals|]. by rewrite Hresp.
Qed.

Lemma webhook_totals_zero_witness :
  let request := mkWebhook (Some (JStr "Log Lunch: Dal, Roti")) None in
  Forall (fun item => food_db !! item = None) ["dal"; "roti"] ∧
  ∃ entry,
    meals_db (snd (webhook "2024-01-01T12:00:00" request empty_state)) =
      [] ++ [entry] ∧
    foodItems entry = ["dal"; "roti"] ∧
    nutrition entry = zero_nutrition ∧
    fst (webhook "2024-01-01T12:00:00" request empty_state) =
      mkResponse 201
        (MealLogged "default_user" "lunch" ["dal"; "roti"] zero_nutrition).
Proof.
  apply (webhook_totals_zero "2024-01-01T12:00:00"
           (mkWebhook (Some (JStr "Log Lunch: Dal, Roti")) None)
           empty_state "Log Lunch: Dal, Roti" "lunch" ["dal"; "roti"]).
  - reflexivity.
  - vm_compute. reflexivity.
Defined.

(** C10: for a message that matches, the recorded [foodItems] are the
    pieces of the plain comma split of the second group, each stripped, none
    dropped: there is one item more than there are commas, the pieces hold
    no comma and joined by commas give the group back, and a group that ends
    in a comma gives a last item that is the empty string. *)
Theorem webhook_items_naive_split (now : string) (data : webhook_request)
    (st : state) (raw meal_type rest : string) :
  wh_message data = Some (JStr raw) ->
  Regex.match_pattern (PyStr.lower (PyStr.strip raw)) = Some (meal_type, rest) ->
  ∃ entry,
    meals_db (snd (webhook now data st)) = meals_db st ++ [entry] ∧
    foodItems entry = PyStr.strip <$> PyStr.split "," rest ∧
    length (foodItems entry) = S (PyStr.count "," rest) ∧
    Forall (fun piece => PyStr.count "," piece = 0) (PyStr.split "," rest) ∧
    PyStr.join "," (PyStr.split "," rest) = rest ∧
    (PyStr.endswith_char "," rest = true ->
     last (foodItems entry) = Some EmptyString).
Proof.
  intros Hmsg Hmatch.
  assert (parse_message raw =
          Some (meal_type, PyStr.strip <$> PyStr.split "," rest)) as Hparse.
  { unfold parse_message. by rewrite Hmatch. }
  destruct (webhook_logged now data st raw meal_type _ Hmsg Hparse)
    as [_ Hmeals].
  eexists. split; [exact Hmeals|]. simpl.
  split; [done|].
  split; [by rewrite length_fmap, split_length|].
  split; [apply split_pieces_no_sep|].
  split; [apply join_split|].
  intros Hend. rewrite fmap_last, (split_endswith _ _ Hend). reflexivity.
Qed.

Lemma webhook_items_naive_split_witness :
  let request :=
    mkWebhook (Some (JStr " log snack:  Roti ,, Dal,")) (Some "asha") in
  ∃ entry,
    meals_db (snd (webhook "2024-01-01T12:00:00" request empty_state)) =
      [] ++ [entry] ∧
    foodItems entry = ["roti"; ""; "dal"; ""] ∧
    length (foodItems entry) = 4 ∧
    last (foodItems entry) = Some EmptyString.
Proof.
  destruct (webhook_items_naive_split "2024-01-01T12:00:00"
              (mkWebhook (Some (JStr " log snack:  Roti ,, Dal,"))
                 (Some "asha"))
              empty_state " log snack:  Roti ,, Dal," "snack" "roti ,, dal,")
    as (entry & Hmeals & Hitems & Hlen & _ & _ & Hlast).
  - reflexivity.
  - vm_compute. reflexivity.
  - exists entry. split; [exact Hmeals|]. split; [exact Hitems|].
    split; [exact Hlen|]. apply Hlast. reflexivity.
Defined.

Example webhook_trailing_comma :
  parse_message "log lunch: Dal, Rice," = Some ("lunch", ["dal"; "rice"; ""]).
Proof. vm_compute. reflexivity. Qed.

(** ** Numbers: the models of [float] and [round] on known values *)

Example float_of_str_200 : PyNum.float_of_str "200" = Ok 200%float.
Proof. vm_compute. reflexivity. Qed.

Example float_of_str_blanks : PyNum.float_of_str " 0.1 " = Ok 0.1%float.
Proof. vm_compute. reflexivity. Qed.

Example float_of_str_exponent :
  PyNum.float_of_str "-.5E+2" = Ok (-50)%float ∧
  PyNum.float_of_str "1_0.5e-3" = Ok 0.0105%float ∧
  PyNum.float_of_str "1e999" = Ok infinity ∧
  PyNum.float_of_str "-Infinity" = Ok neg_infinity ∧
  PyNum.float_of_str "NaN" = Ok nan.
Proof. repeat split; vm_compute; reflexivity. Qed.

Example float_of_str_rounds_to_nearest :
  PyNum.float_of_str "9007199254740993" = Ok 9007199254740992%float ∧
  PyNum.float_of_str "1.7976931348623159e308" = Ok infinity ∧
  PyNum.float_of_str "2.4703282292062328e-324" = Ok 5e-324%float ∧
  PyNum.float_of_str "2.4703282292062327e-324" = Ok 0%float.
Proof. repeat split; vm_compute; reflexivity. Qed.

Example float_of_str_rejects :
  PyNum.float_of_str "abc" = Raise (Exn ValueError None) ∧
  PyNum.float_of_str "" = Raise (Exn ValueError None) ∧
  PyNum.float_of_str "1e" = Raise (Exn ValueError None) ∧
  PyNum.float_of_str "1__0" = Raise (Exn ValueError None) ∧
  PyNum.float_of_str "1 2" = Raise (Exn ValueError None).
Proof. repeat split; vm_compute; reflexivity. Qed.

Example float_of_int_examples :
  PyNum.float_of_int (-70) = Ok (-70)%float ∧
  PyNum.float_of_int 9007199254740993 = Ok 9007199254740992%float ∧
  PyNum.float_of_int (10 ^ 400) = Raise (Exn OverflowError None).
Proof. repeat split; vm_compute; reflexivity. Qed.

Example round2_examples :
  PyNum.round2 1700.057 = 1700.06%float ∧
  PyNum.round2 2.675 = 2.67%float ∧
  PyNum.round2 0.125 = 0.12%float ∧
  PyNum.round2 0.375 = 0.38%float ∧
  PyNum.round2 1.005 = 1%float ∧
  PyNum.round2 (-0.001) = neg_zero ∧
  PyNum.round2 1e300 = 1e300%float ∧
  PyNum.round2 nan = nan.
Proof. repeat split; vm_compute; reflexivity. Qed.

(** ** calculate_bmr *)

Lemma float_neq (x y : float) : Prim2SF x ≠ Prim2SF y -> x ≠ y.
Proof. intros H ->. by apply H. Qed.

(** C5, with the message the code raises: the result is the male formula
    when the lower-cased gender is "male", the female formula when it is
    "female", and otherwise a ValueError whose message is
    "Gender must be 'male' or 'female'".  The value comes back as the
    formula gives it: for (male, 70, 170, 25) it is 1700.057, which
    rounding to two decimals would change. *)
Theorem calculate_bmr_cases (gender : string) (weight height age : float) :
  (PyStr.lower gender = "male" ->
   calculate_bmr gender weight height age =
   Ok (88.362 + 13.397 * weight + 4.799 * height - 5.677 * age)%float) ∧
  (PyStr.lower gender = "female" ->
   calculate_bmr gender weight height age =
   Ok (447.593 + 9.247 * weight + 3.098 * height - 4.33 * age)%float) ∧
  (PyStr.lower gender ≠ "male" -> PyStr.lower gender ≠ "female" ->
   calculate_bmr gender weight height age =
   Raise (Exn ValueError (Some "Gender must be 'male' or 'female'"))) ∧
  (calculate_bmr "male" 70 170 25 = Ok 1700.057%float ∧
   PyNum.round2 1700.057 ≠ 1700.057%float).
Proof.
  unfold calculate_bmr. repeat split.
  - by intros ->.
  - by intros ->.
  - intros Hm Hf.
    destruct (String.eqb_spec (PyStr.lower gender) "male"); [done|].
    by destruct (String.eqb_spec (PyStr.lower gender) "female").
  - apply float_neq. vm_compute. discriminate.
Qed.

Lemma calculate_bmr_cases_witness :
  calculate_bmr "MALE" 82.5 180 41 =
    Ok (88.362 + 13.397 * 82.5 + 4.799 * 180 - 5.677 * 41)%float ∧
  calculate_bmr "Female" 60 165 30 =
    Ok (447.593 + 9.247 * 60 + 3.098 * 165 - 4.33 * 30)%float ∧
  calculate_bmr "other" 60 165 30 =
    Raise (Exn ValueError (Some "Gender must be 'male' or 'female'")).
Proof.
  split; [|split].
  - apply (proj1 (calculate_bmr_cases "MALE" 82.5 180 41)). reflexivity.
  - apply (proj1 (proj2 (calculate_bmr_cases "Female" 60 165 30))).
    reflexivity.
  - apply (proj1 (proj2 (proj2 (calculate_bmr_cases "other" 60 165 30))));
      discriminate.
Defined.

(** C5 as it was worded: for a gender that is neither, the message of the
    error is not "gender must be male or female". *)
Lemma calculate_bmr_message_differs :
  PyStr.lower "other" ≠ "male" ∧ PyStr.lower "other" ≠ "female" ∧
  calculate_bmr "other" 60 165 30 ≠
  Raise (Exn ValueError (Some "gender must be male or female")).
Proof. repeat split; discriminate. Qed.

(** ** validate_user_data *)

(** C8: the empty mapping gets the six "is required" messages, one for each
    required field in the order name, age, weight, height, gender, goal, and
    nothing else. *)
Theorem validate_empty :
  validate_user_data ∅ =
    Ok ["name is required"; "age is required"; "weight is required";
        "height is required"; "gender is required"; "goal is required"] ∧
  validate_user_data ∅ =
    Ok ((fun field => field +:+ " is required") <$> required_fields) ∧
  required_fields = ["name"; "age"; "weight"; "height"; "gender"; "goal"].
Proof.
  unfold validate_user_data, numeric_errors, gender_errors, required_errors.
  rewrite !lookup_empty. repeat split.
Qed.

Lemma required_errors_elem (data : gmap string json) (msg : string) :
  msg ∈ required_errors data ->
  msg ∈ ["name is required"; "age is required"; "weight is required";
         "height is required"; "gender is required"; "goal is required"].
Proof.
  unfold required_errors.
  intros (field & -> & Hfield)%list_elem_of_fmap.
  apply list_elem_of_In, filter_In in Hfield as [Hfield _].
  apply list_elem_of_In in Hfield. unfold required_fields in Hfield.
  repeat (apply elem_of_cons in Hfield as [->|Hfield];
          [simpl; set_solver|]).
  by apply elem_of_nil in Hfield.
Qed.

(** A numeric block adds nothing, its range message or its parse message,
    never two messages. *)
Lemma numeric_errors_cases (data : gmap string json) (field : string)
    (upper : float) (range_msg parse_msg : string) (l : list string) :
  numeric_errors data field upper range_msg parse_msg = Ok l ->
  l = [] ∨ l = [range_msg] ∨ l = [parse_msg].
Proof.
  unfold numeric_errors.
  destruct (data !! field) as [v|]; [|intros [= <-]; by left].
  destruct (py_float v) as [x|[kind msg]].
  - destruct (_ || _); intros [= <-]; auto.
  - destruct kind; try done. intros [= <-]; auto.
Qed.

Lemma gender_errors_cases (data : gmap string json) (l : list string) :
  gender_errors data = Ok l -> l = [] ∨ l = [gender_error].
Proof.
  unfold gender_errors.
  destruct (data !! "gender") as [v|]; [|intros [= <-]; by left].
  destruct (py_lower v) as [g|e]; simpl; [|done].
  destruct (_ || _); intros [= <-]; auto.
Qed.

Lemma validate_user_data_inv (data : gmap string json) (errs : list string) :
  validate_user_data data = Ok errs ->
  ∃ age weight height gender,
    errs = required_errors data ++ age ++ weight ++ height ++ gender ∧
    numeric_errors data "age" 150
      "Age must be between 1 and 150" "Age must be a valid number" = Ok age ∧
    numeric_errors data "weight" 500
      "Weight must be between 1 and 500 kg" "Weight must be a valid number"
      = Ok weight ∧
    numeric_errors data "height" 300
      "Height must be between 1 and 300 cm" "Height must be a valid number"
      = Ok height ∧
    gender_errors data = Ok gender.
Proof.
  unfold validate_user_data. cbv [mbind result_bind].
  destruct (numeric_errors data "age" _ _ _) as [age|]; [|done].
  destruct (numeric_errors data "weight" _ _ _) as [weight|]; [|done].
  destruct (numeric_errors data "height" _ _ _) as [height|]; [|done].
  destruct (gender_errors data) as [gender|]; [|done].
  intros [= <-]. by exists age, weight, height, gender.
Qed.

(** Closes a goal from a membership of a message in a list of other
    messages. *)
Ltac no_such_message H :=
  repeat first
    [ apply elem_of_app in H as [H|H]
    | apply required_errors_elem in H
    | apply elem_of_cons in H as [H|H]
    | apply elem_of_nil in H; destruct H
    | discriminate H ].

(** C9: in one call no numeric field gets both its parse message and its
    range message; a field that does not parse still leaves the other
    fields checked.  The request with age "200" gets exactly the age range
    message. *)
Theorem validate_parse_or_range :
  (∀ (data : gmap string json) (errs : list string),
     validate_user_data data = Ok errs ->
     ¬ ("Age must be a valid number" ∈ errs ∧
        "Age must be between 1 and 150" ∈ errs) ∧
     ¬ ("Weight must be a valid number" ∈ errs ∧
        "Weight must be between 1 and 500 kg" ∈ errs) ∧
     ¬ ("Height must be a valid number" ∈ errs ∧
        "Height must be between 1 and 300 cm" ∈ errs)) ∧
  validate_user_data request_age_200 = Ok ["Age must be between 1 and 150"] ∧
  validate_user_data request_age_text =
    Ok ["Age must be a valid number"; "Weight must be between 1 and 500 kg"].
Proof.
  split; [|split; vm_compute; reflexivity].
  intros data errs
    (age & weight & height & gender & -> & Ha & Hw & Hh & Hg)%validate_user_data_inv.
  apply numeric_errors_cases in Ha, Hw, Hh.
  apply gender_errors_cases in Hg. unfold gender_error in Hg.
  repeat split; intros [H1 H2];
    destruct Ha as [-> | [-> | ->]], Hw as [-> | [-> | ->]],
             Hh as [-> | [-> | ->]], Hg as [-> | ->];
    solve [no_such_message H1 | no_such_message H2].
Qed.

Lemma validate_parse_or_range_witness :
  ¬ ("Age must be a valid number" ∈ ["Age must be between 1 and 150"] ∧
     "Age must be between 1 and 150" ∈ ["Age must be between 1 and 150"]) ∧
  ¬ ("Weight must be a valid number" ∈ ["Age must be between 1 and 150"] ∧
     "Weight must be between 1 and 500 kg" ∈
       ["Age must be between 1 and 150"]) ∧
  ¬ ("Height must be a valid number" ∈ ["Age must be between 1 and 150"] ∧
     "Height must be between 1 and 300 cm" ∈
       ["Age must be between 1 and 150"]).
Proof.
  apply (proj1 validate_parse_or_range request_age_200).
  vm_compute. reflexivity.
Defined.

(** ** Registration *)

(** Splits on the call a hypothesis is waiting for. *)
Ltac step_result H :=
  match type of H with
  | context [match ?x with Ok _ => _ | Raise _ => _ end] =>
      lazymatch x with
      | context [match _ with Ok _ => _ | Raise _ => _ end] => fail
      | _ => destruct x eqn:?; try discriminate H
      end
  end.

(** What a 201 of [register_user] tells: the request validated, its
    stripped name was free, and the new record, with a [bmr] that went
    through [round(_, 2)], is what the user store now holds for it. *)
Lemma register_user_created (now : string) (data : gmap string json)
    (st st' : state) (u : UserRecord) :
  register_user now data st = (mkResponse 201 (Registered u), st') ->
  validate_user_data data = Ok [] ∧
  (∃ name, data !! "name" = Some (JStr name) ∧ user_name u = PyStr.strip name) ∧
  users_db st !! user_name u = None ∧
  (∃ b, user_bmr u = PyNum.round2 b) ∧
  st' = mkState (<[user_name u := u]> (users_db st)) (meals_db st).
Proof.
  unfold register_user. destruct (size data =? 0)%nat; [done|].
  cbv [handle mbind result_bind]. intros H.
  destruct (validate_user_data data) as [[|e errs]|]; [|done|done].
  destruct (getitem data "name") as [name|] eqn:Hname; [|done].
  destruct (py_strip name) as [username|] eqn:Hstrip; [|done].
  destruct (users_db st !! username) eqn:Hfree; [done|].
  repeat step_result H.
  injection H as <- <-. simpl.
  split; [done|]. split; [|by eauto].
  unfold getitem in Hname. destruct (data !! "name") as [v|]; [|done].
  injection Hname as ->. destruct name; try done.
  injection Hstrip as <-. by eexists.
Qed.

(** A request whose name, once stripped, is taken never changes the
    stores. *)
Lemma register_user_taken (now : string) (data : gmap string json)
    (st : state) (name : string) :
  data !! "name" = Some (JStr name) ->
  is_Some (users_db st !! PyStr.strip name) ->
  snd (register_user now data st) = st ∧
  (validate_user_data data = Ok [] ->
   fst (register_user now data st) =
   mkResponse 409 (Error "User already exists")).
Proof.
  intros Hname [u Hu]. unfold register_user.
  destruct (size data =? 0)%nat eqn:Hsize.
  { apply Nat.eqb_eq, map_size_empty_iff in Hsize. by subst data. }
  cbv [handle mbind result_bind].
  destruct (validate_user_data data) as [[|e errs]|]; [|done|done].
  unfold getitem. rewrite Hname. simpl. by rewrite Hu.
Qed.

(** C7, with the order the code checks in: after a registration that
    succeeded, a second registration whose stripped name is the same leaves
    both stores as they were, whatever else it carries; the user store
    still holds the record of the first call and the meal store has gained
    nothing; and when the second request passes validation the answer is
    the 409 conflict. *)
Theorem register_twice_conflict (now1 now2 : string)
    (data1 data2 : gmap string json) (st st1 : state) (u : UserRecord)
    (name2 : string) :
  register_user now1 data1 st = (mkResponse 201 (Registered u), st1) ->
  data2 !! "name" = Some (JStr name2) ->
  PyStr.strip name2 = user_name u ->
  snd (register_user now2 data2 st1) = st1 ∧
  users_db (snd (register_user now2 data2 st1)) !! user_name u = Some u ∧
  meals_db (snd (register_user now2 data2 st1)) = meals_db st ∧
  (validate_user_data data2 = Ok [] ->
   fst (register_user now2 data2 st1) =
   mkResponse 409 (Error "User already exists")).
Proof.
  intros (_ & _ & _ & _ & ->)%register_user_created Hname2 Hsame.
  assert (users_db (mkState (<[user_name u := u]> (users_db st)) (meals_db st))
            !! PyStr.strip name2 = Some u) as Hu.
  { rewrite Hsame. simpl. apply lookup_insert_eq. }
  destruct (register_user_taken now2 data2 _ name2 Hname2 (mk_is_Some _ _ Hu))
    as [Hsnd Hconflict].
  rewrite Hsnd. split; [done|].
  split; [simpl; apply lookup_insert_eq|]. by split.
Qed.

Lemma register_twice_conflict_witness :
  let first := register_user "2024-01-01T09:00:00" request_asha empty_state in
  let second := register_user "2024-01-02T09:00:00" request_asha_again
                  (snd first) in
  snd second = snd first ∧
  users_db (snd second) !! "Asha" =
    Some (mkUser "Asha" (NFloat 30) (NFloat 60) (NFloat 165) "female"
            (JStr "maintain") 1383.68 "2024-01-01T09:00:00") ∧
  meals_db (snd second) = [] ∧
  fst second = mkResponse 409 (Error "User already exists").
Proof.
  destruct (register_twice_conflict
              "2024-01-01T09:00:00" "2024-01-02T09:00:00"
              request_asha request_asha_again empty_state
              (snd (register_user "2024-01-01T09:00:00" request_asha
                      empty_state))
              (mkUser "Asha" (NFloat 30) (NFloat 60) (NFloat 165) "female"
                 (JStr "maintain") 1383.68 "2024-01-01T09:00:00") "Asha")
    as (Hsame & Huser & Hmeals & Hconflict).
  - vm_compute. reflexivity.
  - vm_compute. reflexivity.
  - reflexivity.
  - split; [exact Hsame|]. split; [exact Huser|]. split; [exact Hmeals|].
    apply Hconflict. vm_compute. reflexivity.
Defined.

(** C7 as it was worded: validation comes before the name check, so the
    second request below, which has the name of an existing user and the age
    "200", is answered 400 with the validation message, not 409. *)
Lemma register_taken_name_invalid_request :
  let st1 :=
    snd (register_user "2024-01-01T09:00:00" request_asha empty_state) in
  users_db st1 !! "Asha" =
    Some (mkUser "Asha" (NFloat 30) (NFloat 60) (NFloat 165) "female"
            (JStr "maintain") 1383.68 "2024-01-01T09:00:00") ∧
  request_asha_invalid !! "name" = Some (JStr "Asha") ∧
  PyStr.strip "Asha" = "Asha" ∧
  fst (register_user "2024-01-02T09:00:00" request_asha_invalid st1) =
    mkResponse 400 (ValidationFailed ["Age must be between 1 and 150"]) ∧
  fst (register_user "2024-01-02T09:00:00" request_asha_invalid st1) ≠
    mkResponse 409 (Error "User already exists").
Proof.
  cbv zeta. repeat split; try (vm_compute; reflexivity).
  intros H. vm_compute in H. discriminate H.
Qed.

(** ** The stored bmr *)

(** The record that a registration stores has a [bmr] that is the result
    of [round(_, 2)]. *)
Lemma register_stores_rounded_bmr (now : string) (data : gmap string json)
    (st st' : state) (u : UserRecord) :
  register_user now data st = (mkResponse 201 (Registered u), st') ->
  users_db st' !! user_name u = Some u ∧ ∃ b, user_bmr u = PyNum.round2 b.
Proof.
  intros (_ & _ & _ & Hb & ->)%register_user_created.
  split; [apply lookup_insert_eq|done].
Qed.

(** The record that the webhook stores for a user it does not know has the
    [bmr] that [calculate_bmr] returned. *)
Lemma webhook_provisions_default (now : string) (data : webhook_request)
    (st : state) (raw meal_type : string) (food_items : list string) :
  wh_message data = Some (JStr raw) ->
  parse_message raw = Some (meal_type, food_items) ->
  let user := default "default_user" (wh_user data) in
  users_db st !! user = None ->
  users_db (snd (webhook now data st)) !! user =
    Some (mkUser user (NInt 25) (NInt 70) (NInt 170) "male" (JStr "maintain")
            1700.057 now).
Proof.
  intros Hmsg Hparse user Hnew. unfold webhook. rewrite Hmsg.
  cbv [handle mbind result_bind]. rewrite Hparse. fold user. rewrite Hnew.
  rewrite default_user_ok. simpl. apply lookup_insert_eq.
Qed.

(** C3, as the code has it on the webhook path: the record stored for the
    unknown user "bob" has the bmr 1700.057 that [calculate_bmr] returned,
    not the 1700.06 that rounding to two decimals gives. *)
Theorem webhook_default_bmr_unrounded :
  ∃ u,
    users_db (snd (webhook "2024-01-01T12:00:00" webhook_bob empty_state))
      !! "bob" = Some u ∧
    user_bmr u = 1700.057%float ∧
    PyNum.round2 (user_bmr u) = 1700.06%float ∧
    PyNum.round2 (user_bmr u) ≠ user_bmr u.
Proof.
  eexists. split; [vm_compute; reflexivity|]. simpl.
  split; [vm_compute; reflexivity|].
  split; [vm_compute; reflexivity|].
  apply float_neq. vm_compute. discriminate.
Qed.

(** * Further properties *)

(** ** Validation *)

Lemma required_errors_nil (data : gmap string json) :
  required_errors data = [] <->
  ∀ field, field ∈ required_fields -> missing data field = false.
Proof.
  unfold required_errors, required_fields. split.
  - intros H field Hfield. apply fmap_nil_inv in H.
    destruct (missing data field) eqn:E; [|done].
    assert (In field (List.filter (missing data)
              ["name"; "age"; "weight"; "height"; "gender"; "goal"])) as Hin.
    { apply filter_In. split; [by apply list_elem_of_In|done]. }
    rewrite H in Hin. destruct Hin.
  - intros H. simpl.
    rewrite !H by (repeat first [by left | right]). done.
Qed.

Lemma missing_false (data : gmap string json) (field : string) :
  missing data field = false <->
  ∃ v, data !! field = Some v ∧ truthy v = true.
Proof.
  unfold missing. destruct (data !! field) as [v|].
  - rewrite negb_false_iff. split; [by exists v|]. by intros (? & [= <-] & ?).
  - split; [done|]. by intros (? & ? & ?).
Qed.

Lemma numeric_errors_nil (data : gmap string json) (field : string)
    (upper : float) (range_msg parse_msg : string) (v : json) :
  data !! field = Some v ->
  numeric_errors data field upper range_msg parse_msg = Ok [] <->
  ∃ x, py_float v = Ok x ∧ accepted upper x = true.
Proof.
  intros Hv. unfold numeric_errors, accepted. rewrite Hv.
  destruct (py_float v) as [x|[kind msg]].
  - destruct (_ || _) eqn:E; simpl.
    + split; [done|]. intros (? & [= <-] & H). by rewrite E in H.
    + split; [|done]. intros _. exists x. by rewrite E.
  - split; [destruct kind; done|]. by intros (? & ? & ?).
Qed.

Lemma gender_errors_nil (data : gmap string json) (v : json) :
  data !! "gender" = Some v ->
  gender_errors data = Ok [] <->
  ∃ g, v = JStr g ∧ (PyStr.lower g = "male" ∨ PyStr.lower g = "female").
Proof.
  intros Hv. unfold gender_errors. rewrite Hv.
  destruct v as [| | | |g| |]; simpl;
    try (split; [done|by intros (? & ? & ?)]).
  destruct (String.eqb_spec (PyStr.lower g) "male") as [Hm|Hm]; simpl.
  - split; [|done]. intros _. exists g. auto.
  - destruct (String.eqb_spec (PyStr.lower g) "female") as [Hf|Hf].
    + split; [|done]. intros _. exists g. auto.
    + split; [done|]. intros (? & [= <-] & [?|?]); done.
Qed.

(** A request that validates has the six fields, numbers within bounds and
    a gender that is male or female. *)
Lemma validate_ok_well_formed (data : gmap string json) :
  validate_user_data data = Ok [] -> well_formed data.
Proof.
  unfold well_formed, numeric_ok.
  intros (age & weight & height & gender & Hnil & Ha & Hw & Hh & Hg)
    %validate_user_data_inv.
  symmetry in Hnil.
  apply app_eq_nil in Hnil as [Hreq Hnil].
  apply app_eq_nil in Hnil as [-> Hnil].
  apply app_eq_nil in Hnil as [-> Hnil].
  apply app_eq_nil in Hnil as [-> ->].
  pose proof (proj1 (required_errors_nil data) Hreq) as Hpresent.
  assert (∀ field, field ∈ required_fields ->
            ∃ v, data !! field = Some v ∧ truthy v = true) as Hfields.
  { intros field Hfield. by apply missing_false, Hpresent. }
  split; [exact Hfields|].
  destruct (Hfields "age") as (va & Hva & _); [by repeat constructor|].
  destruct (Hfields "weight") as (vw & Hvw & _); [by repeat constructor|].
  destruct (Hfields "height") as (vh & Hvh & _); [by repeat constructor|].
  destruct (Hfields "gender") as (vg & Hvg & _); [by repeat constructor|].
  apply (numeric_errors_nil _ _ _ _ _ _ Hva) in Ha as (a & Ha1 & Ha2).
  apply (numeric_errors_nil _ _ _ _ _ _ Hvw) in Hw as (w & Hw1 & Hw2).
  apply (numeric_errors_nil _ _ _ _ _ _ Hvh) in Hh as (h & Hh1 & Hh2).
  apply (gender_errors_nil _ _ Hvg) in Hg as (g & -> & Hg).
  repeat split; eauto 10.
Qed.

Lemma well_formed_validate_ok (data : gmap string json) :
  well_formed data -> validate_user_data data = Ok [].
Proof.
  unfold well_formed, numeric_ok.
  intros (Hfields & (va & a & Hva & Ha & Hra) & (vw & w & Hvw & Hw & Hrw)
          & (vh & h & Hvh & Hh & Hrh) & (g & Hvg & Hg)).
  unfold validate_user_data.
  assert (required_errors data = []) as ->.
  { apply required_errors_nil. intros field Hfield.
    by apply missing_false, Hfields. }
  rewrite (proj2 (numeric_errors_nil _ _ _ _ _ _ Hva)) by eauto.
  rewrite (proj2 (numeric_errors_nil _ _ _ _ _ _ Hvw)) by eauto.
  rewrite (proj2 (numeric_errors_nil _ _ _ _ _ _ Hvh)) by eauto.
  rewrite (proj2 (gender_errors_nil _ _ Hvg)) by eauto.
  reflexivity.
Qed.

(** X1: the requests that validation lets through are exactly those in which
    the six fields are present and truthy, age, weight and height convert
    with [float] to a number that is neither [<= 0] nor above the field's
    bound, and gender is a string that lower-cases to male or female. *)
Theorem validate_accepts_iff (data : gmap string json) :
  validate_user_data data = Ok [] <-> well_formed data.
Proof.
  split; [apply validate_ok_well_formed|apply well_formed_validate_ok].
Qed.

(** X2: the bounds are tested with [<=] and [>], which are both false for a
    NaN: a request that validates still validates when its age is replaced
    by the text "nan". *)
Theorem validate_accepts_nan (data : gmap string json) :
  validate_user_data data = Ok [] ->
  validate_user_data (<["age" := JStr "nan"]> data) = Ok [].
Proof.
  intros (Hfields & _ & (vw & w & Hvw & Hw & Hrw) & (vh & h & Hvh & Hh & Hrh)
          & (g & Hvg & Hg))%validate_ok_well_formed.
  apply well_formed_validate_ok. unfold well_formed, numeric_ok.
  split.
  { intros field Hfield. destruct (decide (field = "age")) as [->|Hne].
    - exists (JStr "nan"). by rewrite lookup_insert_eq.
    - rewrite lookup_insert_ne by done. by apply Hfields. }
  split; [exists (JStr "nan"), nan; by rewrite lookup_insert_eq|].
  rewrite !lookup_insert_ne by done.
  split; [by exists vw, w|]. split; [by exists vh, h|]. by exists g.
Qed.

Lemma validate_accepts_nan_witness :
  validate_user_data (<["age" := JStr "nan"]> request_asha) = Ok [].
Proof.
  apply (validate_accepts_nan request_asha). vm_compute. reflexivity.
Defined.

(** ** Registration *)

Lemma size_nonzero_lookup (data : gmap string json) (key : string) (v : json) :
  data !! key = Some v -> (size data =? 0)%nat = false.
Proof.
  intros Hv. apply Nat.eqb_neq. intros Hsize.
  apply map_size_empty_iff in Hsize. subst data. by rewrite lookup_empty in Hv.
Qed.

(** When [save_data()] returns: a request that validates, with a string for a name that is still free,
    is answered 201: the record is stored under the stripped name, with the
    numbers converted by [float], the gender in lower case and the rounded
    result of [calculate_bmr]; the meal store is untouched. *)
Lemma register_user_accepts_plain (now : string) (data : gmap string json)
    (st : state) (name : string) :
  validate_user_data data = Ok [] ->
  data !! "name" = Some (JStr name) ->
  users_db st !! PyStr.strip name = None ->
  ∃ g vw vh va w h a b goal,
    data !! "gender" = Some (JStr g) ∧ data !! "goal" = Some goal ∧
    data !! "weight" = Some vw ∧ py_float vw = Ok w ∧
    data !! "height" = Some vh ∧ py_float vh = Ok h ∧
    data !! "age" = Some va ∧ py_float va = Ok a ∧
    calculate_bmr g w h a = Ok b ∧
    let u := mkUser (PyStr.strip name) (NFloat a) (NFloat w) (NFloat h)
               (PyStr.lower g) goal (PyNum.round2 b) now in
    register_user now data st =
      (mkResponse 201 (Registered u),
       mkState (<[PyStr.strip name := u]> (users_db st)) (meals_db st)).
Proof.
  intros Hvalid Hname Hfree.
  pose proof (validate_ok_well_formed data Hvalid)
    as (Hfields & (va & a & Hva & Ha & _) & (vw & w & Hvw & Hw & _)
        & (vh & h & Hvh & Hh & _) & (g & Hg & Hmf)).
  destruct (Hfields "goal") as (goal & Hgoal & _); [by repeat constructor|].
  assert (∃ b, calculate_bmr g w h a = Ok b) as [b Hb].
  { unfold calculate_bmr. destruct Hmf as [-> | ->]; simpl; eauto. }
  exists g, vw, vh, va, w, h, a, b, goal.
  repeat (split; [done|]).
  unfold register_user. rewrite (size_nonzero_lookup _ _ _ Hname), Hvalid.
  cbv [handle mbind result_bind getitem].
  rewrite Hname. simpl. rewrite Hfree, Hg, Hvw, Hw, Hvh, Hh, Hva, Ha.
  simpl. rewrite Hb, Hgoal. reflexivity.
Qed.

(** What a registration does to the stores: nothing, or, with a 201, one
    new record under a name that was free. *)
Lemma register_user_effect (now : string) (data : gmap string json)
    (st : state) :
  (status (fst (register_user now data st)) ≠ 201%Z ∧
   snd (register_user now data st) = st) ∨
  ∃ u, users_db st !! user_name u = None ∧
       register_user now data st =
         (mkResponse 201 (Registered u),
          mkState (<[user_name u := u]> (users_db st)) (meals_db st)).
Proof.
  unfold register_user.
  destruct (size data =? 0)%nat; [by left|].
  cbv [handle mbind result_bind].
  destruct (validate_user_data data) as [[|e errs]|]; [|by left|by left].
  destruct (getitem data "name") as [name|]; [|by left].
  destruct (py_strip name) as [username|]; [|by left].
  destruct (users_db st !! username) eqn:Hfree; [by left|].
  repeat match goal with
         | |- context [match ?x with Ok _ => _ | Raise _ => _ end] =>
             lazymatch x with
             | context [match _ with Ok _ => _ | Raise _ => _ end] => fail
             | _ => destruct x; [|by left]
             end
         end.
  right.
  match goal with |- context [Registered ?r] => exists r end.
  by split.
Qed.

(** ** The webhook and the structured log *)

(** What a webhook request does to the stores: nothing, or, with a 201, one
    more meal and, for a user that was not known, the default record. *)
Lemma webhook_effect (now : string) (data : webhook_request) (st : state) :
  (status (fst (webhook now data st)) ≠ 201%Z ∧
   snd (webhook now data st) = st) ∨
  ∃ raw meal_type food_items,
    wh_message data = Some (JStr raw) ∧
    parse_message raw = Some (meal_type, food_items) ∧
    let user := default "default_user" (wh_user data) in
    let totals := calculate_nutrition food_items in
    webhook now data st =
      (mkResponse 201 (MealLogged user meal_type food_items totals),
       mkState
         (match users_db st !! user with
          | Some _ => users_db st
          | None =>
              <[user := mkUser user (NInt 25) (NInt 70) (NInt 170) "male"
                          (JStr "maintain") 1700.057 now]> (users_db st)
          end)
         (meals_db st ++
            [mkMeal user (PyStr.capitalize meal_type) food_items totals now])).
Proof.
  unfold webhook. destruct (wh_message data) as [m|]; [|by left].
  cbv [handle mbind result_bind].
  destruct m as [| | | |raw| |]; try by left.
  destruct (parse_message raw) as [[meal_type food_items]|] eqn:Hparse;
    [|by left].
  right. exists raw, meal_type, food_items. split; [done|]. split; [done|].
  destruct (users_db st !! _); [done|]. by rewrite default_user_ok.
Qed.

Lemma filter_user_none (user : string) (l : list MealEntry) :
  Forall (fun meal => userId meal ≠ user) l ->
  List.filter (fun meal => String.eqb (userId meal) user) l = [].
Proof.
  induction 1 as [|meal rest Hmeal _ IH]; [done|]. simpl.
  by destruct (String.eqb_spec (userId meal) user).
Qed.



(** What a structured log does to the stores: nothing, or, with a 201, one
    more meal for a user that is known. *)
Lemma log_meals_effect (now : string) (data : meal_request) (st : state) :
  (reply_code (fst (log_meals now data st)) ≠ 201%Z ∧
   snd (log_meals now data st) = st) ∨
  ∃ user meal names,
    mr_members data !! "user" = Some (JStr user) ∧
    mr_members data !! "meal" = Some (JStr meal) ∧
    mr_items data = Some (ItemsArray names) ∧ names ≠ [] ∧
    is_Some (users_db st !! PyStr.strip user) ∧
    str_in (PyStr.lower (PyStr.strip meal)) valid_meals = true ∧
    let entry :=
      mkMeal (PyStr.strip user)
        (PyStr.capitalize (PyStr.lower (PyStr.strip meal))) names
        (calculate_nutrition names) now in
    log_meals now data st =
      (Done 201 entry, mkState (users_db st) (meals_db st ++ [entry])).
Proof.
  unfold log_meals. destruct (no_members data); [by left|].
  destruct (mr_members data !! "user") as [user|]; [|by left].
  destruct (mr_members data !! "meal") as [meal|]; [|by left].
  destruct (mr_items data) as [items|]; [|by left].
  cbv [catch mbind result_bind py_strip].
  destruct user as [| | | |user| |]; try by left.
  destruct meal as [| | | |meal| |]; try by left.
  destruct (users_db st !! PyStr.strip user) eqn:Huser; [|by left].
  destruct (str_in (PyStr.lower (PyStr.strip meal)) valid_meals) eqn:Hmeal;
    [|by left].
  cbv [negb].
  destruct items as [[|name names]|]; try by left.
  right. exists user, meal, (name :: names). by repeat split.
Qed.

(** X8: the user is looked up before the meal type and the items are checked:
    for an unknown user the answer is 404, whatever the rest of the request
    is worth, and nothing is stored. *)
Theorem log_meals_unknown_user (now : string) (data : meal_request)
    (st : state) (user meal : string) (items : items_value) :
  mr_members data !! "user" = Some (JStr user) ->
  mr_members data !! "meal" = Some (JStr meal) ->
  mr_items data = Some items ->
  users_db st !! PyStr.strip user = None ->
  log_meals now data st = (Rejected 404 "User not found", st).
Proof.
  intros Huser Hmeal Hitems Hunknown. unfold log_meals.
  assert (no_members data = false) as ->.
  { unfold no_members. by rewrite Hitems, andb_false_r. }
  rewrite Huser, Hmeal, Hitems. cbv [catch mbind result_bind py_strip].
  by rewrite Hunknown.
Qed.

(** ** What every sequence of requests keeps *)

(** One request changes the stores in one of three ways. *)
Lemma apply_request_effect (r : request) (st : state) :
  apply_request r st = st ∨
  (∃ u, users_db st !! user_name u = None ∧
        apply_request r st =
          mkState (<[user_name u := u]> (users_db st)) (meals_db st)) ∨
  (∃ user meal_type food_items now,
     PyStr.capitalize meal_type ∈ ["Breakfast"; "Lunch"; "Dinner"; "Snack"] ∧
     let entry := mkMeal user (PyStr.capitalize meal_type) food_items
                    (calculate_nutrition food_items) now in
     (is_Some (users_db st !! user) ∧
      apply_request r st = mkState (users_db st) (meals_db st ++ [entry]) ∨
      ∃ u, users_db st !! user = None ∧ user_name u = user ∧
           apply_request r st =
             mkState (<[user := u]> (users_db st)) (meals_db st ++ [entry]))).
Proof.
  destruct r as [now data|now data|now data]; simpl.
  - destruct (register_user_effect now data st) as [[_ ->]|(u & Hfree & ->)];
      [by left|].
    right; left. by exists u.
  - destruct (log_meals_effect now data st)
      as [[_ ->]|(user & meal & names & _ & _ & _ & _ & Huser & Hin & ->)];
      [by left|].
    right; right.
    exists (PyStr.strip user), (PyStr.lower (PyStr.strip meal)), names, now.
    split; [|by left].
    unfold str_in in Hin. apply existsb_exists in Hin as (x & Hx & Heq).
    apply String.eqb_eq in Heq as ->. apply list_elem_of_In in Hx.
    unfold valid_meals in Hx.
    repeat (apply elem_of_cons in Hx as [->|Hx]; [simpl; set_solver|]).
    by apply elem_of_nil in Hx.
  - destruct (webhook_effect now data st)
      as [[_ ->]|(raw & mt & items & _ & Hparse & ->)]; [by left|].
    right; right.
    exists (default "default_user" (wh_user data)), mt, items, now.
    split.
    + apply parse_message_inv in Hparse as (rest & Hmatch & _).
      apply match_pattern_inv in Hmatch as [Hmt _].
      unfold Regex.meal_types in Hmt.
      repeat (apply elem_of_cons in Hmt as [->|Hmt]; [simpl; set_solver|]).
      by apply elem_of_nil in Hmt.
    + simpl. destruct (users_db st !! _) eqn:Huser.
      * left. by split.
      * right. eexists. split; [done|]. split; [|reflexivity]. done.
Qed.

(** X15: nothing ever changes or removes a stored record or a logged meal: after
    any sequence of requests the user store still holds every record it
    held, unchanged, and the meal store starts with the meals it had. *)
Theorem run_extends (requests : list request) (st : state) :
  users_db st ⊆ users_db (run requests st) ∧
  meals_db st `prefix_of` meals_db (run requests st).
Proof.
  revert st. induction requests as [|r requests IH]; intros st; simpl; [done|].
  destruct (IH (apply_request r st)) as [Husers Hmeals].
  assert (users_db st ⊆ users_db (apply_request r st) ∧
          meals_db st `prefix_of` meals_db (apply_request r st)) as [H1 H2].
  { destruct (apply_request_effect r st)
      as [->|[(u & Hfree & ->)|(user & mt & items & now & _ &
              [[_ ->]|(u & Hfree & _ & ->)])]]; simpl.
    - done.
    - split; [by apply insert_subseteq|done].
    - split; [done|by apply prefix_app_r].
    - split; [by apply insert_subseteq|by apply prefix_app_r]. }
  split; by etrans.
Qed.

Lemma apply_request_meals_have_users (r : request) (st : state) :
  meals_have_users st -> meals_have_users (apply_request r st).
Proof.
  unfold meals_have_users. intros Hst.
  destruct (apply_request_effect r st)
    as [->|[(u & Hfree & ->)|(user & mt & items & now & _ &
            [[Huser ->]|(u & Hfree & _ & ->)])]]; simpl.
  - done.
  - eapply Forall_impl; [exact Hst|]. intros meal [v Hv]. simpl in *.
    exists v. eapply lookup_weaken; [exact Hv|by apply insert_subseteq].
  - apply Forall_app. split; [done|]. by repeat constructor.
  - apply Forall_app. split.
    + eapply Forall_impl; [exact Hst|]. intros meal [v Hv]. simpl in *.
      exists v. eapply lookup_weaken; [exact Hv|by apply insert_subseteq].
    + repeat constructor. simpl. rewrite lookup_insert_eq. by eexists.
Qed.

Lemma apply_request_meals_snapshot (r : request) (st : state) :
  meals_snapshot st -> meals_snapshot (apply_request r st).
Proof.
  unfold meals_snapshot. intros Hst.
  destruct (apply_request_effect r st)
    as [->|[(u & Hfree & ->)|(user & mt & items & now & Hmt &
            [[Huser ->]|(u & Hfree & _ & ->)])]]; simpl; try done.
  - apply Forall_app. split; [done|]. by constructor.
  - apply Forall_app. split; [done|]. by constructor.
Qed.

Lemma apply_request_users_keyed (r : request) (st : state) :
  users_keyed_by_name st -> users_keyed_by_name (apply_request r st).
Proof.
  unfold users_keyed_by_name. intros Hst.
  destruct (apply_request_effect r st)
    as [->|[(u & Hfree & ->)|(user & mt & items & now & _ &
            [[Huser ->]|(u & Hfree & Hname & ->)])]]; simpl; try done.
  - intros key v. rewrite lookup_insert. case_decide as Hkey.
    + intros [= <-]. done.
    + apply Hst.
  - intros key v. rewrite lookup_insert. case_decide as Hkey.
    + intros [= <-]. by subst.
    + apply Hst.
Qed.

Lemma run_invariant (P : state -> Prop) :
  (∀ r st, P st -> P (apply_request r st)) ->
  ∀ requests st, P st -> P (run requests st).
Proof.
  intros Hstep requests.
  induction requests as [|r requests IH]; intros st Hst; simpl; [done|].
  by apply IH, Hstep.
Qed.

(** X16: referential integrity: a meal is only ever stored for a user the user
    store knows, so from stores in which every meal has its user, and in
    particular from the empty stores, no sequence of requests leads to a
    meal without a user. *)
Theorem run_meals_have_users (requests : list request) :
  (∀ st, meals_have_users st -> meals_have_users (run requests st)) ∧
  meals_have_users (run requests empty_state).
Proof.
  assert (∀ st, meals_have_users st -> meals_have_users (run requests st))
    as H.
  { apply run_invariant. apply apply_request_meals_have_users. }
  split; [exact H|]. apply H. constructor.
Qed.

(** X17: every meal that the routes store carries the aggregated totals of its
    own item list and one of the four meal types, capitalised. *)
Theorem run_meals_snapshot (requests : list request) :
  (∀ st, meals_snapshot st -> meals_snapshot (run requests st)) ∧
  meals_snapshot (run requests empty_state).
Proof.
  assert (∀ st, meals_snapshot st -> meals_snapshot (run requests st)) as H.
  { apply run_invariant. apply apply_request_meals_snapshot. }
  split; [exact H|]. apply H. constructor.
Qed.

(** X18: every record is stored under the name it carries. *)
Theorem run_users_keyed_by_name (requests : list request) :
  (∀ st, users_keyed_by_name st -> users_keyed_by_name (run requests st)) ∧
  users_keyed_by_name (run requests empty_state).
Proof.
  assert (∀ st, users_keyed_by_name st ->
                users_keyed_by_name (run requests st)) as H.
  { apply run_invariant. apply apply_request_users_keyed. }
  split; [exact H|]. apply H. intros key u. simpl. by rewrite lookup_empty.
Qed.

(** ** Aggregation: bounds *)

Lemma food_db_entry_bounds (item : string) (facts : Nutrition) :
  food_db !! item = Some facts ->
  nonneg facts ∧
  (calories facts <= 300 ∧ protein facts <= 25 ∧ carbs facts <= 45 ∧
   fiber facts <= 5)%Z.
Proof.
  intros E. unfold food_db in E. apply elem_of_list_to_map_2 in E.
  repeat (apply elem_of_cons in E as [[= _ ->]|E];
          [unfold nonneg; simpl; lia|]).
  by apply elem_of_nil in E.
Qed.

(** X19: the totals are never negative, no item adds more than the largest
    catalog values (300 calories, 25 protein, 45 carbs, 5 fiber), and
    further items never lower a total. *)
Theorem calculate_nutrition_bounds (food_items more : list string) :
  nonneg (calculate_nutrition food_items) ∧
  (calories (calculate_nutrition food_items) <= 300 * Z.of_nat (length food_items) ∧
   protein (calculate_nutrition food_items) <= 25 * Z.of_nat (length food_items) ∧
   carbs (calculate_nutrition food_items) <= 45 * Z.of_nat (length food_items) ∧
   fiber (calculate_nutrition food_items) <= 5 * Z.of_nat (length food_items))%Z ∧
  le_nutrition (calculate_nutrition food_items)
               (calculate_nutrition (food_items ++ more)).
Proof.
  assert (∀ l, nonneg (calculate_nutrition l) ∧
    (calories (calculate_nutrition l) <= 300 * Z.of_nat (length l) ∧
     protein (calculate_nutrition l) <= 25 * Z.of_nat (length l) ∧
     carbs (calculate_nutrition l) <= 45 * Z.of_nat (length l) ∧
     fiber (calculate_nutrition l) <= 5 * Z.of_nat (length l))%Z) as Hbounds.
  { induction l as [|item l IH]; [unfold nonneg; simpl; lia|].
    rewrite calculate_nutrition_cons. cbn [length].
    rewrite Nat2Z.inj_succ.
    destruct (food_db !! item) as [facts|] eqn:E; simpl.
    - apply food_db_entry_bounds in E. unfold nonneg in *. simpl. lia.
    - unfold nonneg in *. simpl. lia. }
  split; [apply Hbounds|]. split; [apply Hbounds|].
  rewrite calculate_nutrition_app.
  destruct (Hbounds more) as [Hmore _].
  unfold le_nutrition, nonneg in *. simpl. lia.
Qed.

(** ** The read routes *)

Lemma filter_filter {A : Type} (f g : A -> bool) (l : list A) :
  List.filter g (List.filter f l) = List.filter (fun x => f x && g x) l.
Proof.
  induction l as [|x l IH]; [done|]. simpl.
  destruct (f x); simpl; [|done]. destruct (g x); by rewrite IH.
Qed.

Lemma filter_sublist {A : Type} (f : A -> bool) (l : list A) :
  List.filter f l `sublist_of` l.
Proof.
  induction l as [|x l IH]; [done|]. simpl.
  destruct (f x); by constructor.
Qed.

Lemma sum_meals_from (total : Nutrition) (l : list MealEntry) :
  fold_left (fun total meal => add_nutrition total (nutrition meal)) l total =
  add_nutrition total (sum_meals l).
Proof.
  unfold sum_meals. revert total.
  induction l as [|meal l IH]; intros total; simpl.
  - by rewrite add_nutrition_zero_r.
  - rewrite (IH (add_nutrition total _)), (IH (add_nutrition zero_nutrition _)).
    rewrite !add_nutrition_assoc. by f_equal.
Qed.

Lemma sum_meals_cons (meal : MealEntry) (l : list MealEntry) :
  sum_meals (meal :: l) = add_nutrition (nutrition meal) (sum_meals l).
Proof.
  unfold sum_meals at 1. simpl. rewrite sum_meals_from. by f_equal.
Qed.

Lemma sum_meals_app (l1 l2 : list MealEntry) :
  sum_meals (l1 ++ l2) = add_nutrition (sum_meals l1) (sum_meals l2).
Proof.
  unfold sum_meals at 1 2. by rewrite fold_left_app, sum_meals_from.
Qed.

(** X21: the status of a known user agrees with the two listings: it counts the
    meals of the full listing and sums their totals, and its figures for
    today are the count and the sum of the listing for today's date, which
    is a part of the full listing. *)
Theorem get_user_status_agrees (today user : string) (st : state)
    (u : UserRecord) :
  users_db st !! user = Some u ->
  ∃ report all todays,
    get_user_status today user st = Done 200 report ∧
    get_user_meals user st = Done 200 all ∧
    get_user_meals_by_date user today st = Done 200 todays ∧
    status_bmr report = user_bmr u ∧ status_goal report = user_goal u ∧
    total_meals_logged report = total_meals all ∧
    total_nutrition_consumed report = sum_meals (meals all) ∧
    meals_today report = total_meals todays ∧
    today_nutrition report = sum_meals (meals todays) ∧
    meals todays `sublist_of` meals all ∧
    meals_today report <= total_meals_logged report ∧
    Forall (fun meal => str_prefix 10 (loggedAt meal) = today) (meals todays).
Proof.
  intros Hu.
  unfold get_user_status, get_user_meals, get_user_meals_by_date.
  rewrite Hu. do 3 eexists. repeat (split; [reflexivity|]). simpl.
  unfold meals_of. rewrite filter_filter.
  split; [done|]. split; [done|].
  rewrite <- filter_filter.
  split; [apply filter_sublist|].
  split; [apply sublist_length, filter_sublist|].
  apply Forall_forall. intros meal [_ Hd]%list_elem_of_In%filter_In.
  by apply String.eqb_eq.
Qed.

(** ** The status in stores the routes built *)

Lemma sum_meals_snapshot (l : list MealEntry) :
  Forall (fun meal => nutrition meal = calculate_nutrition (foodItems meal)) l ->
  sum_meals l = calculate_nutrition (concat (foodItems <$> l)).
Proof.
  induction 1 as [|meal l Hmeal _ IH]; [done|].
  rewrite sum_meals_cons. simpl.
  by rewrite calculate_nutrition_app, Hmeal, IH.
Qed.

Lemma calculate_nutrition_nonneg (l : list string) :
  nonneg (calculate_nutrition l).
Proof.
  induction l as [|item l IH]; [unfold nonneg; simpl; lia|].
  rewrite calculate_nutrition_cons.
  destruct (food_db !! item) as [facts|] eqn:E; simpl.
  - apply food_db_entry_bounds in E. unfold nonneg in *. simpl. lia.
  - unfold nonneg in *. simpl. lia.
Qed.

Lemma sum_meals_filter_le (f : MealEntry -> bool) (l : list MealEntry) :
  Forall (fun meal => nonneg (nutrition meal)) l ->
  nonneg (sum_meals (List.filter f l)) ∧
  le_nutrition (sum_meals (List.filter f l)) (sum_meals l).
Proof.
  induction 1 as [|meal l Hmeal _ [IH1 IH2]].
  - unfold nonneg, le_nutrition. simpl. lia.
  - simpl. destruct (f meal); rewrite !sum_meals_cons;
      unfold nonneg, le_nutrition in *; simpl; lia.
Qed.

(** X22: in stores where every meal carries the totals of its items, the
    lifetime totals of the status are the aggregation of all the items the
    user ever logged, and today's totals are non-negative and never above
    the lifetime totals. *)
Theorem get_user_status_totals (today user : string) (st : state)
    (u : UserRecord) :
  meals_snapshot st ->
  users_db st !! user = Some u ->
  ∃ report,
    get_user_status today user st = Done 200 report ∧
    total_nutrition_consumed report =
      calculate_nutrition (concat (foodItems <$> meals_of user st)) ∧
    nonneg (today_nutrition report) ∧
    le_nutrition (today_nutrition report) (total_nutrition_consumed report).
Proof.
  intros Hsnap Hu. unfold get_user_status. rewrite Hu.
  eexists. split; [reflexivity|]. simpl.
  assert (Forall (fun meal =>
            nutrition meal = calculate_nutrition (foodItems meal))
            (meals_of user st)) as Hmine.
  { apply Forall_forall. intros meal [Hin _]%list_elem_of_In%filter_In.
    apply list_elem_of_In in Hin.
    unfold meals_snapshot in Hsnap. rewrite Forall_forall in Hsnap.
    by apply Hsnap. }
  split; [by apply sum_meals_snapshot|].
  apply sum_meals_filter_le.
  eapply Forall_impl; [exact Hmine|]. intros meal ->.
  apply calculate_nutrition_nonneg.
Qed.

(** X9: a meal that the structured log accepts shows in the status of its user
    at once: one meal more and its totals added to the lifetime figures,
    and to today's figures exactly when the first ten characters of its
    timestamp are today's date.  The status of every other user stays as it
    was. *)
Theorem log_meals_then_status (now today : string) (data : meal_request)
    (st st' : state) (entry : MealEntry) :
  log_meals now data st = (Done 201 entry, st') ->
  (∃ before after,
     get_user_status today (userId entry) st = Done 200 before ∧
     get_user_status today (userId entry) st' = Done 200 after ∧
     total_meals_logged after = S (total_meals_logged before) ∧
     total_nutrition_consumed after =
       add_nutrition (total_nutrition_consumed before) (nutrition entry) ∧
     nutrition entry = calculate_nutrition (foodItems entry) ∧
     (str_prefix 10 now = today ->
      meals_today after = S (meals_today before) ∧
      today_nutrition after =
        add_nutrition (today_nutrition before) (nutrition entry)) ∧
     (str_prefix 10 now ≠ today ->
      meals_today after = meals_today before ∧
      today_nutrition after = today_nutrition before)) ∧
  ∀ other, other ≠ userId entry ->
    get_user_status today other st' = get_user_status today other st.
Proof.
  intros Hlog.
  destruct (log_meals_effect now data st)
    as [[Hne _]|(user & meal & names & _ & _ & _ & _ & [u Hu] & _ & Heq)].
  { rewrite Hlog in Hne. done. }
  rewrite Hlog in Heq. injection Heq as -> ->.
  assert (∀ a b c e, meal_date (mkMeal a b c e now) = str_prefix 10 now)
    as Hdate by reflexivity.
  remember (str_prefix 10 now) as day eqn:Hday.
  unfold get_user_status, meals_of. cbn [userId nutrition foodItems users_db
    meals_db]. split.
  - rewrite Hu. do 2 eexists. split; [reflexivity|]. split; [reflexivity|].
    cbn [total_meals_logged total_nutrition_consumed meals_today
         today_nutrition].
    rewrite !List.filter_app, !sum_meals_app, !length_app.
    cbn [List.filter userId]. rewrite String.eqb_refl.
    cbn [List.filter]. rewrite Hdate.
    rewrite !sum_meals_cons. cbn [nutrition length].
    split; [lia|]. split; [by rewrite add_nutrition_zero_r|]. split; [done|].
    split.
    + intros ->. rewrite String.eqb_refl. rewrite sum_meals_cons.
      cbn [nutrition length]. split; [lia|by rewrite add_nutrition_zero_r].
    + intros Hne. destruct (String.eqb_spec day today); [done|].
      cbn [length]. split; [lia|by rewrite add_nutrition_zero_r].
  - intros other Hother. destruct (users_db st !! other); [|done].
    rewrite !List.filter_app. cbn [List.filter userId].
    destruct (String.eqb_spec (PyStr.strip user) other); [congruence|].
    by rewrite !app_nil_r.
Qed.

(** ** The pattern: which messages match *)

Lemma lit_app {R : Type} (p s : string) (k : string -> option R) :
  Regex.lit p (p +:+ s) k = k s.
Proof.
  induction p as [|a p IH]; simpl; [done|]. by rewrite Ascii.eqb_refl.
Qed.

(** A greedy run takes the whole run when what follows it can go on. *)
Lemma star_greedy {R : Type} (p : ascii -> bool) (w s : string)
    (k : string -> option R) (r : R) :
  PyStr.forallb p w = true ->
  match s with String c _ => p c = false | EmptyString => True end ->
  k s = Some r ->
  Regex.star p (w +:+ s) k = Some r.
Proof.
  intros Hw Hs Hk. induction w as [|c w IH]; simpl.
  - destruct s as [|c s]; [done|]. simpl. by rewrite Hs.
  - simpl in Hw. apply andb_prop in Hw as [-> Hw]. by rewrite IH.
Qed.

Lemma star_group_greedy {R : Type} (p : ascii -> bool) (g tail : string)
    (k : string -> string -> option R) :
  PyStr.forallb p g = true ->
  match tail with String c _ => p c = false | EmptyString => True end ->
  (∀ g' tail', is_Some (k g' tail')) ->
  Regex.star_group p (g +:+ tail) k = k g tail.
Proof.
  intros Hg Htail. revert k. induction g as [|c g IH]; intros k Hk; simpl.
  - destruct tail as [|c tail]; simpl; [done|]. by rewrite Htail.
  - simpl in Hg. apply andb_prop in Hg as [-> Hg].
    rewrite IH by (done || intros; apply Hk).
    by destruct (Hk (String c g) tail) as [r ->].
Qed.

(** X13: completeness of the pattern: [log], at least one blank, one of the four
    meal types, a colon, any blanks, and then a run without line feed that
    starts with a visible character and goes to the end of the line, is
    matched, with that meal type and that run as the two groups. *)
Theorem match_pattern_complete (w1 w2 meal_type rest tail : string) :
  meal_type ∈ Regex.meal_types ->
  w1 ≠ EmptyString -> PyStr.forallb PyStr.is_space w1 = true ->
  PyStr.forallb PyStr.is_space w2 = true ->
  match rest with
  | String c _ => PyStr.is_space c = false
  | EmptyString => False
  end ->
  PyStr.forallb Regex.dot rest = true ->
  match tail with
  | String c _ => Regex.dot c = false
  | EmptyString => True
  end ->
  Regex.match_pattern
    ("log" +:+ w1 +:+ meal_type +:+ ":" +:+ w2 +:+ rest +:+ tail) =
  Some (meal_type, rest).
Proof.
  intros Hmt Hw1 Hs1 Hs2 Hrest Hdot Htail.
  unfold Regex.match_pattern. rewrite lit_app.
  destruct w1 as [|c1 w1]; [done|]. simpl in Hs1.
  apply andb_prop in Hs1 as [Hc1 Hs1].
  change (String c1 w1 +:+ ?x)%string with (String c1 (w1 +:+ x)).
  cbn [Regex.plus]. rewrite Hc1.
  assert (∀ s, match (meal_type +:+ s)%string with
               | String c _ => PyStr.is_space c = false
               | EmptyString => True
               end) as Hhead.
  { intros s. unfold Regex.meal_types in Hmt.
    repeat (apply elem_of_cons in Hmt as [->|Hmt]; [done|]).
    by apply elem_of_nil in Hmt. }
  apply star_greedy; [done|apply Hhead|]. clear Hhead.
  assert (Regex.star PyStr.is_space (w2 +:+ rest +:+ tail)
            (fun s5 => Regex.plus_group Regex.dot s5
                         (fun g2 _ => Some (meal_type, g2))) =
          Some (meal_type, rest)) as Hcont.
  { destruct rest as [|c rest]; [done|].
    apply star_greedy; [done|done|]. simpl in Hdot.
    apply andb_prop in Hdot as [Hc Hdot].
    change (String c rest +:+ ?x)%string with (String c (rest +:+ x)).
    cbn [Regex.plus_group]. rewrite Hc.
    rewrite star_group_greedy; [done|done|done|]. by eexists. }
  unfold Regex.meal_types in *.
  repeat (apply elem_of_cons in Hmt as [->|Hmt];
          [simpl; change ("" +:+ ?x)%string with x; by rewrite Hcont|]).
  by apply elem_of_nil in Hmt.
Qed.

Lemma match_pattern_complete_witness :
  Regex.match_pattern "log   snack: roti, dal" = Some ("snack", "roti, dal").
Proof.
  apply (match_pattern_complete "   " " " "snack" "roti, dal" "").
  - set_solver.
  - discriminate.
  - reflexivity.
  - reflexivity.
  - reflexivity.
  - reflexivity.
  - exact I.
Defined.

(** ** What the webhook parses *)

Lemma rstrip_idem (s : string) : PyStr.rstrip (PyStr.rstrip s) = PyStr.rstrip s.
Proof.
  induction s as [|c s IH]; [done|]. simpl.
  destruct (PyStr.is_space c && PyStr.is_empty (PyStr.rstrip s)) eqn:E;
    [done|].
  simpl. by rewrite IH, E.
Qed.

Lemma lstrip_head (s : string) :
  match PyStr.lstrip s with
  | String c _ => PyStr.is_space c = false
  | EmptyString => True
  end.
Proof.
  induction s as [|c s IH]; [done|]. simpl.
  destruct (PyStr.is_space c) eqn:E; [done|]. by simpl.
Qed.

Lemma lstrip_fixed (t : string) :
  match t with
  | String c _ => PyStr.is_space c = false
  | EmptyString => True
  end -> PyStr.lstrip t = t.
Proof. destruct t as [|c t]; [done|]. simpl. by intros ->. Qed.

Lemma rstrip_head (t : string) :
  match t with
  | String c _ => PyStr.is_space c = false
  | EmptyString => True
  end ->
  match PyStr.rstrip t with
  | String c _ => PyStr.is_space c = false
  | EmptyString => True
  end.
Proof.
  destruct t as [|c t]; [done|]. simpl. intros H. rewrite H. simpl. exact H.
Qed.

Lemma strip_idem (s : string) : PyStr.strip (PyStr.strip s) = PyStr.strip s.
Proof.
  unfold PyStr.strip.
  rewrite (lstrip_fixed (PyStr.rstrip (PyStr.lstrip s)))
    by apply rstrip_head, lstrip_head.
  apply rstrip_idem.
Qed.

Lemma count_lstrip (x : ascii) (s : string) :
  PyStr.count x s = 0 -> PyStr.count x (PyStr.lstrip s) = 0.
Proof.
  induction s as [|c s IH]; [done|]. simpl.
  destruct (PyStr.is_space c); [|done].
  destruct (Ascii.eqb c x); [done|]. exact IH.
Qed.

Lemma count_rstrip (x : ascii) (s : string) :
  PyStr.count x s = 0 -> PyStr.count x (PyStr.rstrip s) = 0.
Proof.
  induction s as [|c s IH]; [done|]. simpl.
  destruct (Ascii.eqb c x) eqn:E; [done|]. simpl. intros H.
  destruct (PyStr.is_space c && _); [done|]. simpl. rewrite E. by apply IH.
Qed.

(** X14: what the webhook hands on after a match: one of the four meal types in
    lower case, and at least one item; every item is free of commas, of
    surrounding blanks and of upper-case letters (it may be empty). *)
Theorem parse_message_items (raw meal_type : string)
    (food_items : list string) :
  parse_message raw = Some (meal_type, food_items) ->
  meal_type ∈ ["breakfast"; "lunch"; "dinner"; "snack"] ∧
  food_items ≠ [] ∧
  Forall (fun item => PyStr.count "," item = 0 ∧
                      PyStr.strip item = item ∧
                      PyStr.no_upper item = true) food_items.
Proof.
  intros Hparse.
  pose proof (parse_message_no_upper _ _ _ Hparse) as Hlow.
  apply parse_message_inv in Hparse as (rest & Hmatch & ->).
  apply match_pattern_inv in Hmatch as [Hmt _].
  split; [exact Hmt|]. split.
  { pose proof (split_not_nil "," rest). by destruct (PyStr.split "," rest). }
  apply Forall_fmap in Hlow. apply Forall_fmap.
  pose proof (split_pieces_no_sep "," rest) as Hsep.
  rewrite Forall_forall in Hlow, Hsep. apply Forall_forall.
  intros piece Hpiece. simpl.
  split; [by apply count_rstrip, count_lstrip, Hsep|].
  split; [apply strip_idem|by apply Hlow].
Qed.

Lemma parse_message_items_witness :
  "lunch" ∈ ["breakfast"; "lunch"; "dinner"; "snack"] ∧
  ["dal"; ""; "jeera rice"] ≠ [] ∧
  Forall (fun item => PyStr.count "," item = 0 ∧
                      PyStr.strip item = item ∧
                      PyStr.no_upper item = true) ["dal"; ""; "jeera rice"].
Proof.
  apply (parse_message_items " LOG Lunch: Dal ,, Jeera Rice " "lunch").
  vm_compute. reflexivity.
Defined.

(** X5: a user that has just been registered has an empty status: in stores
    where every meal has its user, the status after the 201 shows the
    stored bmr and goal, no meal and all-zero totals, and the listing is
    empty. *)
Theorem register_then_status (now today : string) (data : gmap string json)
    (st st' : state) (u : UserRecord) :
  register_user now data st = (mkResponse 201 (Registered u), st') ->
  meals_have_users st ->
  get_user_status today (user_name u) st' =
    Done 200 (mkStatus (user_name u) (user_bmr u) (user_goal u)
                zero_nutrition today zero_nutrition 0 0) ∧
  get_user_meals (user_name u) st' =
    Done 200 (mkListing (user_name u) None 0 []).
Proof.
  intros (_ & _ & Hfree & _ & ->)%register_user_created Hinv.
  assert (Forall (fun meal => userId meal ≠ user_name u) (meals_db st))
    as Hnone.
  { eapply Forall_impl; [exact Hinv|]. intros meal [v Hv] Heq.
    rewrite Heq in Hv. congruence. }
  unfold get_user_status, get_user_meals, meals_of. simpl.
  rewrite lookup_insert_eq. by rewrite (filter_user_none _ _ Hnone).
Qed.

Lemma register_then_status_witness :
  let out := register_user "2024-01-01T09:00:00" request_asha empty_state in
  get_user_status "2024-01-01" "Asha" (snd out) =
    Done 200 (mkStatus "Asha" 1383.68 (JStr "maintain") zero_nutrition
                "2024-01-01" zero_nutrition 0 0) ∧
  get_user_meals "Asha" (snd out) = Done 200 (mkListing "Asha" None 0 []).
Proof.
  apply (register_then_status "2024-01-01T09:00:00" "2024-01-01" request_asha
           empty_state
           (snd (register_user "2024-01-01T09:00:00" request_asha empty_state))
           (mkUser "Asha" (NFloat 30) (NFloat 60) (NFloat 165) "female"
              (JStr "maintain") 1383.68 "2024-01-01T09:00:00")).
  - vm_compute. reflexivity.
  - constructor.
Defined.

(** ** The properties above on the example history *)

Lemma example_asha :
  users_db example_state !! "Asha" =
  Some (mkUser "Asha" (NFloat 30) (NFloat 60) (NFloat 165) "female"
          (JStr "maintain") 1383.68 "2024-01-01T09:00:00").
Proof. vm_compute. reflexivity. Defined.

Lemma log_meals_unknown_user_witness :
  log_meals "2024-01-03T10:00:00" meal_request_stranger example_state =
  (Rejected 404 "User not found", example_state).
Proof.
  apply (log_meals_unknown_user "2024-01-03T10:00:00" meal_request_stranger
           example_state "nobody" "brunch" ItemsOther).
  - reflexivity.
  - reflexivity.
  - reflexivity.
  - vm_compute. reflexivity.
Defined.

Lemma get_user_status_agrees_witness :
  ∃ report all todays,
    get_user_status "2024-01-02" "Asha" example_state = Done 200 report ∧
    get_user_meals "Asha" example_state = Done 200 all ∧
    get_user_meals_by_date "Asha" "2024-01-02" example_state =
      Done 200 todays ∧
    total_meals_logged report = total_meals all ∧
    meals_today report = total_meals todays ∧
    total_meals all = 2 ∧ total_meals todays = 1.
Proof.
  destruct (get_user_status_agrees "2024-01-02" "Asha" example_state _
              example_asha)
    as (report & all & todays & Hs & Ha & Ht & _ & _ & Hn & _ & Hm & _).
  exists report, all, todays. repeat (split; [assumption|]).
  vm_compute in Ha, Ht. injection Ha as <-. injection Ht as <-. by split.
Defined.

Lemma get_user_status_totals_witness :
  ∃ report,
    get_user_status "2024-01-02" "Asha" example_state = Done 200 report ∧
    total_nutrition_consumed report =
      calculate_nutrition ["Jeera Rice"; "Dal"; "ghee"; "Salad"] ∧
    le_nutrition (today_nutrition report) (total_nutrition_consumed report).
Proof.
  destruct (get_user_status_totals "2024-01-02" "Asha" example_state _
              (run_invariant meals_snapshot apply_request_meals_snapshot
                 example_history empty_state (List.Forall_nil _))
              example_asha)
    as (report & Hs & Htotal & _ & Hle).
  exists report. split; [exact Hs|]. split; [exact Htotal|exact Hle].
Defined.

Lemma log_meals_then_status_witness :
  let st := run [Register "2024-01-01T09:00:00" request_asha] empty_state in
  let out := log_meals "2024-01-01T12:30:00" meal_request_asha st in
  ∃ before after,
    get_user_status "2024-01-01" "Asha" st = Done 200 before ∧
    get_user_status "2024-01-01" "Asha" (snd out) = Done 200 after ∧
    total_meals_logged after = S (total_meals_logged before) ∧
    meals_today after = S (meals_today before) ∧
    today_nutrition after =
      add_nutrition (today_nutrition before) (mkNutrition 430 17 65 7).
Proof.
  destruct (log_meals_then_status "2024-01-01T12:30:00" "2024-01-01"
              meal_request_asha
              (run [Register "2024-01-01T09:00:00" request_asha] empty_state)
              (snd (log_meals "2024-01-01T12:30:00" meal_request_asha
                      (run [Register "2024-01-01T09:00:00" request_asha]
                         empty_state)))
              (mkMeal "Asha" "Lunch" ["Jeera Rice"; "Dal"; "ghee"]
                 (mkNutrition 430 17 65 7) "2024-01-01T12:30:00"))
    as [(before & after & Hb & Ha & Hcount & _ & _ & Htoday & _) _].
  - vm_compute. reflexivity.
  - exists before, after. split; [exact Hb|]. split; [exact Ha|].
    split; [exact Hcount|]. apply Htoday. reflexivity.
Defined.

(** ** The writing routes with [save_data()] *)

(** X3: a request that validates, with a string for a name that is still
    free, always gets its record stored: under the stripped name, with the
    numbers converted by [float], the gender in lower case, the goal as
    sent and the rounded result of [calculate_bmr]; the meal store is
    untouched.  The answer is 201 when [save_data()] returns, and 500 with
    the message of its exception when it raises. *)
Theorem register_user_accepts (save : option string) (now : string)
    (data : gmap string json) (st : state) (name : string) :
  validate_user_data data = Ok [] ->
  data !! "name" = Some (JStr name) ->
  users_db st !! PyStr.strip name = None ->
  ∃ g vw vh va w h a b goal,
    data !! "gender" = Some (JStr g) ∧ data !! "goal" = Some goal ∧
    data !! "weight" = Some vw ∧ py_float vw = Ok w ∧
    data !! "height" = Some vh ∧ py_float vh = Ok h ∧
    data !! "age" = Some va ∧ py_float va = Ok a ∧
    calculate_bmr g w h a = Ok b ∧
    let u := mkUser (PyStr.strip name) (NFloat a) (NFloat w) (NFloat h)
               (PyStr.lower g) goal (PyNum.round2 b) now in
    register_user_saving save now data st =
      (match save with
       | None => mkResponse 201 (Registered u)
       | Some msg => mkResponse 500 (Error msg)
       end,
       mkState (<[PyStr.strip name := u]> (users_db st)) (meals_db st)).
Proof.
  intros Hvalid Hname Hfree.
  destruct (register_user_accepts_plain now data st name Hvalid Hname Hfree)
    as (g & vw & vh & va & w & h & a & b & goal & Hg & Hgoal & Hvw & Hw & Hvh
        & Hh & Hva & Ha & Hb & Hreg).
  exists g, vw, vh, va, w, h, a, b, goal.
  repeat (split; [assumption|]).
  cbv zeta in *. unfold register_user_saving, after_save. rewrite Hreg.
  by destruct save.
Qed.

Lemma register_user_accepts_witness :
  ∃ u,
    register_user_saving None "2024-01-01T09:00:00" request_asha empty_state =
      (mkResponse 201 (Registered u), mkState (<["Asha" := u]> ∅) []) ∧
    register_user_saving (Some "disk full") "2024-01-01T09:00:00"
      request_asha empty_state =
      (mkResponse 500 (Error "disk full"), mkState (<["Asha" := u]> ∅) []) ∧
    user_name u = "Asha" ∧ user_gender u = "female".
Proof.
  destruct (register_user_accepts None "2024-01-01T09:00:00" request_asha
              empty_state " Asha ")
    as (g & vw & vh & va & w & h & a & b & goal & Hg & Hgoal & Hvw & Hw & Hvh
        & Hh & Hva & Ha & Hb & Hreg);
    [vm_compute; reflexivity|vm_compute; reflexivity|reflexivity|].
  destruct (register_user_accepts (Some "disk full") "2024-01-01T09:00:00"
              request_asha empty_state " Asha ")
    as (g' & vw' & vh' & va' & w' & h' & a' & b' & goal' & Hg' & Hgoal' & Hvw'
        & Hw' & Hvh' & Hh' & Hva' & Ha' & Hb' & Hreg');
    [vm_compute; reflexivity|vm_compute; reflexivity|reflexivity|].
  assert (g' = g) as -> by congruence.
  assert (goal' = goal) as -> by congruence.
  assert (vw' = vw) as -> by congruence.
  assert (vh' = vh) as -> by congruence.
  assert (va' = va) as -> by congruence.
  assert (w' = w) as -> by congruence.
  assert (h' = h) as -> by congruence.
  assert (a' = a) as -> by congruence.
  assert (b' = b) as -> by congruence.
  eexists. split; [exact Hreg|]. split; [exact Hreg'|].
  split; [reflexivity|].
  simpl. assert (g = "Female") as -> by (vm_compute in Hg; congruence).
  reflexivity.
Defined.

(** X4: registration never touches the meal store and never changes or
    removes a record that is already stored.  An answer 400 or 409 leaves
    both stores as they were, and so does every answer other than 201 when
    [save_data()] returns; a 201 is only given when it returned, and the
    only change there can be is one new record under a name that was
    free. *)
Theorem register_user_frame (save : option string) (now : string)
    (data : gmap string json) (st : state) :
  let out := register_user_saving save now data st in
  meals_db (snd out) = meals_db st ∧
  users_db st ⊆ users_db (snd out) ∧
  (status (fst out) = 400%Z ∨ status (fst out) = 409%Z -> snd out = st) ∧
  (save = None -> status (fst out) ≠ 201%Z -> snd out = st) ∧
  (status (fst out) = 201%Z -> save = None) ∧
  (snd out ≠ st ->
   ∃ u, users_db st !! user_name u = None ∧
        snd out = mkState (<[user_name u := u]> (users_db st)) (meals_db st)).
Proof.
  unfold register_user_saving, after_save.
  destruct (register_user_effect now data st) as [[Hcode Hst]|(u & Hfree & Heq)].
  - assert ((status (fst (register_user now data st)) =? 201)%Z = false) as Hb
      by by apply Z.eqb_neq.
    destruct save as [msg|]; rewrite ?Hb; cbv zeta; rewrite Hst;
      repeat split; try done.
  - rewrite Heq. destruct save as [msg|]; simpl;
      (split; [done|]); (split; [by apply insert_subseteq|]);
      (split; [by intros [?|?]|]); (split; [done|]);
      (split; [done|]); intros _; by exists u.
Qed.

(** X10: for a request whose [user] member is absent or a string, the
    webhook answers 201 exactly when the message is a string that the
    pattern matches and [save_data()] returns; when the message matches and
    [save_data()] raises, the answer is 500 with the message of the
    exception and the meal is in the meal store all the same. *)
Theorem webhook_logs_iff (save : option string) (now : string)
    (data : webhook_request) (st : state) :
  (status (fst (webhook_saving save now data st)) = 201%Z <->
   (∃ raw, wh_message data = Some (JStr raw) ∧ is_Some (parse_message raw)) ∧
   save = None) ∧
  ∀ raw meal_type food_items msg,
    wh_message data = Some (JStr raw) ->
    parse_message raw = Some (meal_type, food_items) ->
    save = Some msg ->
    fst (webhook_saving save now data st) = mkResponse 500 (Error msg) ∧
    meals_db (snd (webhook_saving save now data st)) =
      meals_db st ++
        [mkMeal (default "default_user" (wh_user data))
           (PyStr.capitalize meal_type) food_items
           (calculate_nutrition food_items) now].
Proof.
  unfold webhook_saving, after_save. split; [split|].
  - intros Hcode.
    destruct (webhook_effect now data st)
      as [[Hne _]|(raw & mt & items & Hmsg & Hparse & Heq)].
    + destruct save as [msg|]; [|done].
      by destruct (status (fst (webhook now data st)) =? 201)%Z.
    + cbv zeta in Heq. rewrite Heq in Hcode. simpl in Hcode.
      split; [exists raw; split; [done|by rewrite Hparse]|].
      by destruct save.
  - intros [(raw & Hmsg & [[mt items] Hparse]) ->].
    by destruct (webhook_logged now data st raw mt items Hmsg Hparse)
      as [-> _].
  - intros raw mt items msg Hmsg Hparse ->.
    destruct (webhook_logged now data st raw mt items Hmsg Hparse)
      as [Hresp Hmeals].
    rewrite Hresp. simpl. by rewrite Hmeals.
Qed.

Lemma webhook_logs_iff_witness :
  status (fst (webhook_saving None "2024-01-01T12:00:00" webhook_bob
                 empty_state)) = 201%Z ∧
  fst (webhook_saving (Some "disk full") "2024-01-01T12:00:00" webhook_bob
         empty_state) = mkResponse 500 (Error "disk full") ∧
  meals_db (snd (webhook_saving (Some "disk full") "2024-01-01T12:00:00"
                   webhook_bob empty_state)) =
    [] ++ [mkMeal "bob" "Lunch" ["dal"] (calculate_nutrition ["dal"])
             "2024-01-01T12:00:00"].
Proof.
  split.
  - apply (proj1 (webhook_logs_iff None "2024-01-01T12:00:00" webhook_bob
                    empty_state)).
    split; [|reflexivity]. exists "log lunch: dal". split; [reflexivity|].
    vm_compute. by eexists.
  - apply (proj2 (webhook_logs_iff (Some "disk full") "2024-01-01T12:00:00"
                    webhook_bob empty_state)
             "log lunch: dal" "lunch" ["dal"] "disk full").
    + reflexivity.
    + vm_compute. reflexivity.
    + reflexivity.
Defined.

(** X11: the webhook never changes or removes a stored record: a known
    user keeps the record it has and nobody else's record is touched.  An
    answer 400 leaves both stores as they were, and so does every answer
    other than 201 when [save_data()] returns; a 201 is only given when it
    returned. *)
Theorem webhook_frame (save : option string) (now : string)
    (data : webhook_request) (st : state) :
  let user := default "default_user" (wh_user data) in
  let out := webhook_saving save now data st in
  users_db st ⊆ users_db (snd out) ∧
  (is_Some (users_db st !! user) -> users_db (snd out) = users_db st) ∧
  (∀ other, other ≠ user ->
     users_db (snd out) !! other = users_db st !! other) ∧
  (status (fst out) = 400%Z -> snd out = st) ∧
  (save = None -> status (fst out) ≠ 201%Z -> snd out = st) ∧
  (status (fst out) = 201%Z -> save = None).
Proof.
  intros user. unfold webhook_saving, after_save. cbv zeta.
  destruct (webhook_effect now data st)
    as [[Hne Hst]|(raw & mt & items & _ & _ & Heq)].
  - assert ((status (fst (webhook now data st)) =? 201)%Z = false) as Hb
      by by apply Z.eqb_neq.
    destruct save as [msg|]; rewrite ?Hb, Hst; by repeat split.
  - cbv zeta in Heq. rewrite Heq. fold user.
    destruct (users_db st !! user) eqn:Huser.
    + destruct save as [msg|]; simpl; by repeat split.
    + destruct save as [msg|]; simpl;
        (split; [by apply insert_subseteq|]); (split; [by intros [? ?]|]);
        (split; [intros other Hother; by rewrite lookup_insert_ne|]);
        by repeat split.
Qed.

(** ** The structured log with [save_data()] *)

Lemma log_meals_accepts_plain (now : string) (data : meal_request)
    (st : state) (user meal : string) (names : list string) :
  mr_members data !! "user" = Some (JStr user) ->
  mr_members data !! "meal" = Some (JStr meal) ->
  mr_items data = Some (ItemsArray names) -> names ≠ [] ->
  is_Some (users_db st !! PyStr.strip user) ->
  PyStr.lower (PyStr.strip meal) ∈ valid_meals ->
  let entry :=
    mkMeal (PyStr.strip user)
      (PyStr.capitalize (PyStr.lower (PyStr.strip meal))) names
      (calculate_nutrition names) now in
  log_meals now data st =
    (Done 201 entry, mkState (users_db st) (meals_db st ++ [entry])).
Proof.
  intros Huser Hmeal Hitems Hnames [u Hu] Hin entry. unfold log_meals.
  assert (no_members data = false) as ->.
  { unfold no_members. by rewrite Hitems, andb_false_r. }
  rewrite Huser, Hmeal, Hitems. cbv [catch mbind result_bind py_strip].
  rewrite Hu.
  assert (str_in (PyStr.lower (PyStr.strip meal)) valid_meals = true) as ->.
  { unfold str_in. apply existsb_exists.
    exists (PyStr.lower (PyStr.strip meal)).
    split; [by apply list_elem_of_In|apply String.eqb_refl]. }
  cbv [negb]. by destruct names.
Qed.

(** X6: for a request whose [items], when an array, holds strings: the
    structured log answers 201 exactly when user and meal are strings, the
    stripped user is known, the stripped and lower-cased meal is one of the
    four meal types, items is a non-empty array and [save_data()] returns.
    Under these conditions on the request the entry is appended whether
    [save_data()] returns or not: it keeps the item names as they were
    sent and carries their aggregated totals and the capitalised meal
    type; a failing [save_data()] turns the answer into a 500. *)
Theorem log_meals_created_iff (save : option string) (now : string)
    (data : meal_request) (st : state) :
  (reply_code (fst (log_meals_saving save now data st)) = 201%Z <->
   (∃ user meal names,
      mr_members data !! "user" = Some (JStr user) ∧
      mr_members data !! "meal" = Some (JStr meal) ∧
      mr_items data = Some (ItemsArray names) ∧ names ≠ [] ∧
      is_Some (users_db st !! PyStr.strip user) ∧
      PyStr.lower (PyStr.strip meal) ∈ valid_meals) ∧
   save = None) ∧
  ∀ user meal names,
    mr_members data !! "user" = Some (JStr user) ->
    mr_members data !! "meal" = Some (JStr meal) ->
    mr_items data = Some (ItemsArray names) -> names ≠ [] ->
    is_Some (users_db st !! PyStr.strip user) ->
    PyStr.lower (PyStr.strip meal) ∈ valid_meals ->
    let entry :=
      mkMeal (PyStr.strip user)
        (PyStr.capitalize (PyStr.lower (PyStr.strip meal))) names
        (calculate_nutrition names) now in
    log_meals_saving save now data st =
      (match save with
       | None => Done 201 entry
       | Some msg => Rejected 500 msg
       end,
       mkState (users_db st) (meals_db st ++ [entry])).
Proof.
  unfold log_meals_saving, after_save_reply. split; [split|].
  - intros Hcode.
    destruct (log_meals_effect now data st)
      as [[Hne _]|(user & meal & names & Hu & Hm & Hi & Hn & Hk & Hin & Heq)].
    + destruct save as [msg|]; [|done].
      by destruct (reply_code (fst (log_meals now data st)) =? 201)%Z.
    + split.
      * exists user, meal, names. repeat (split; [done|]).
        unfold str_in in Hin. apply existsb_exists in Hin as (x & Hx & Hxeq).
        apply String.eqb_eq in Hxeq as ->. by apply list_elem_of_In.
      * cbv zeta in Heq. rewrite Heq in Hcode. by destruct save.
  - intros [(user & meal & names & Hu & Hm & Hi & Hn & Hk & Hin) ->].
    by rewrite (log_meals_accepts_plain now data st user meal names).
  - intros user meal names Hu Hm Hi Hn Hk Hin. cbv zeta.
    rewrite (log_meals_accepts_plain now data st user meal names) by done.
    by destruct save.
Qed.

Lemma log_meals_created_iff_witness :
  let entry := mkMeal "Asha" "Lunch" ["Jeera Rice"; "Dal"; "ghee"]
                 (calculate_nutrition ["Jeera Rice"; "Dal"; "ghee"])
                 "2024-01-03T12:00:00" in
  log_meals_saving None "2024-01-03T12:00:00" meal_request_asha example_state =
    (Done 201 entry,
     mkState (users_db example_state) (meals_db example_state ++ [entry])) ∧
  log_meals_saving (Some "disk full") "2024-01-03T12:00:00" meal_request_asha
    example_state =
    (Rejected 500 "disk full",
     mkState (users_db example_state) (meals_db example_state ++ [entry])).
Proof.
  split.
  - apply (proj2 (log_meals_created_iff None "2024-01-03T12:00:00"
                    meal_request_asha example_state) " Asha " " Lunch ");
      try reflexivity; try discriminate.
    + exact (mk_is_Some _ _ example_asha).
    + vm_compute. by repeat constructor.
  - apply (proj2 (log_meals_created_iff (Some "disk full")
                    "2024-01-03T12:00:00" meal_request_asha example_state)
             " Asha " " Lunch ");
      try reflexivity; try discriminate.
    + exact (mk_is_Some _ _ example_asha).
    + vm_compute. by repeat constructor.
Defined.

(** X7: the structured log never touches the user store.  An answer 400 or
    404 leaves the meal store as it was too, and so does every answer other
    than 201 when [save_data()] returns; a 201 is only given when it
    returned, and the only change there can be is one appended meal. *)
Theorem log_meals_frame (save : option string) (now : string)
    (data : meal_request) (st : state) :
  let out := log_meals_saving save now data st in
  users_db (snd out) = users_db st ∧
  (reply_code (fst out) = 400%Z ∨ reply_code (fst out) = 404%Z ->
   snd out = st) ∧
  (save = None -> reply_code (fst out) ≠ 201%Z -> snd out = st) ∧
  (reply_code (fst out) = 201%Z -> save = None) ∧
  (snd out ≠ st ->
   ∃ entry, snd out = mkState (users_db st) (meals_db st ++ [entry])).
Proof.
  unfold log_meals_saving, after_save_reply. cbv zeta.
  destruct (log_meals_effect now data st)
    as [[Hne Hst]|(user & meal & names & _ & _ & _ & _ & _ & _ & Heq)].
  - assert ((reply_code (fst (log_meals now data st)) =? 201)%Z = false) as Hb
      by by apply Z.eqb_neq.
    destruct save as [msg|]; rewrite ?Hb, Hst; by repeat split.
  - cbv zeta in Heq. rewrite Heq.
    destruct save as [msg|]; simpl;
      (split; [done|]); (split; [by intros [?|?]|]); (split; [done|]);
      (split; [done|]); intros _; by eexists.
Qed.

(** ** The meal listing, occurrence by occurrence *)

Lemma count_occ_filter (f : MealEntry -> bool) (l : list MealEntry)
    (meal : MealEntry) :
  count_occ MealEntry_eq_dec (List.filter f l) meal =
  if f meal then count_occ MealEntry_eq_dec l meal else 0.
Proof.
  induction l as [|x l IH]; simpl; [by destruct (f meal)|].
  destruct (f x) eqn:Hx; simpl.
  - destruct (MealEntry_eq_dec x meal) as [->|Hne].
    + by rewrite IH, Hx.
    + exact IH.
  - destruct (MealEntry_eq_dec x meal) as [->|Hne].
    + by rewrite IH, Hx.
    + exact IH.
Qed.

(** X20: for a known user the listing holds exactly the stored meals with
    that user id: it is a sublist of the meal store, so the logging order is
    kept; every meal of the user occurs in it as often as in the meal store
    and no other meal occurs at all; and [total_meals] is its length, which
    is the number of the user's meals in the store.  Logging one more meal
    extends the listing of its user by that meal and leaves the listings of
    the others as they were. *)
Theorem get_user_meals_lists (user : string) (st : state) :
  is_Some (users_db st !! user) ->
  ∃ listing,
    get_user_meals user st = Done 200 listing ∧
    listing_user listing = user ∧ listing_date listing = None ∧
    total_meals listing = length (meals listing) ∧
    meals listing `sublist_of` meals_db st ∧
    (∀ meal,
       count_occ MealEntry_eq_dec (meals listing) meal =
       if String.eqb (userId meal) user
       then count_occ MealEntry_eq_dec (meals_db st) meal else 0) ∧
    (∀ meal, meal ∈ meals listing <->
             meal ∈ meals_db st ∧ userId meal = user) ∧
    ∀ entry,
      get_user_meals user (mkState (users_db st) (meals_db st ++ [entry])) =
      Done 200
        (if String.eqb (userId entry) user
         then mkListing user None (S (total_meals listing))
                (meals listing ++ [entry])
         else listing).
Proof.
  intros [u Hu]. unfold get_user_meals. rewrite Hu.
  eexists. split; [reflexivity|]. simpl.
  split; [done|]. split; [done|]. split; [done|].
  split; [apply filter_sublist|].
  split; [intros meal; apply count_occ_filter|].
  split.
  - intros meal. split.
    + intros [Hin Hid%String.eqb_eq]%list_elem_of_In%filter_In.
      split; [by apply list_elem_of_In|done].
    + intros [Hin Hid]. apply list_elem_of_In, filter_In.
      split; [by apply list_elem_of_In|by apply String.eqb_eq].
  - intros entry. rewrite Hu. unfold meals_of. simpl.
    rewrite List.filter_app. simpl.
    destruct (String.eqb (userId entry) user).
    + rewrite length_app. simpl. f_equal. f_equal. lia.
    + by rewrite app_nil_r.
Qed.

Lemma get_user_meals_lists_witness :
  ∃ listing,
    get_user_meals "Asha" example_state = Done 200 listing ∧
    total_meals listing = 2 ∧
    meals listing `sublist_of` meals_db example_state ∧
    count_occ MealEntry_eq_dec (meals listing)
      (mkMeal "Asha" "Snack" ["Salad"] (mkNutrition 25 2 5 3)
         "2024-01-02T16:00:00") = 1 ∧
    count_occ MealEntry_eq_dec (meals listing)
      (mkMeal "bob" "Lunch" ["dal"] zero_nutrition "2024-01-02T08:00:00") = 0.
Proof.
  destruct (get_user_meals_lists "Asha" example_state
              (mk_is_Some _ _ example_asha))
    as (listing & Hget & _ & _ & Htotal & Hsub & Hcount & _ & _).
  exists listing. split; [exact Hget|].
  split.
  { rewrite Htotal. vm_compute in Hget. injection Hget as <-. reflexivity. }
  split; [exact Hsub|].
  split; rewrite Hcount; vm_compute; reflexivity.
Defined.
